(** * Gaussian output model of BHMM
    (sktime/markovprocess/bhmm/output_models/gaussian.py)

    A shallow embedding of [GaussianOutputModel]: the constructor with its
    shape validation, [sub_output_model], the EM update [fit], the posterior
    sampler [sample] and the three generators.  Arrays are numpy arrays of
    dtype float64, so their entries are the kernel's binary64 floats and all
    arithmetic below is IEEE arithmetic (NaN and infinities included). *)

From Stdlib Require Import List ZArith Lia Bool Floats.
Import ListNotations.

(** ** Python values, exceptions *)

Inductive exn : Type :=
| ValueError
| TypeError
| IndexError
| RuntimeError.

Inductive result (A : Type) : Type :=
| Ok (a : A)
| Raise (e : exn).

Arguments Ok {A} a.
Arguments Raise {A} e.

Definition rbind {A B : Type} (r : result A) (k : A -> result B) : result B :=
  match r with
  | Ok a => k a
  | Raise e => Raise e
  end.

Notation "'let?' x ':=' r 'in' k" := (rbind r (fun x => k))
  (at level 10, x name, r at level 100, k at level 200).

(** A float64 ndarray: its shape and its entries in row-major order. *)
Record ndarray : Type := mk_ndarray { shape : list nat; data : list float }.

(** 1-D array [np.array([x0, x1, ...])]. *)
Definition vec (xs : list float) : ndarray := mk_ndarray [length xs] xs.

(** 2-D column [np.array([[x0], [x1], ...])], of shape (n, 1). *)
Definition column (xs : list float) : ndarray := mk_ndarray [length xs; 1%nat] xs.

(** 0-d array. *)
Definition scalar0 (x : float) : ndarray := mk_ndarray [] [x].

(** [a.squeeze()]: every axis of length one is dropped. *)
Definition squeeze (a : ndarray) : ndarray :=
  mk_ndarray (filter (fun d => negb (Nat.eqb d 1)) (shape a)) (data a).

(** What the [n_states] slot of the constructor can receive: the documented
    int, or (from [sub_output_model]) a float64 array. *)
Inductive pyval : Type :=
| PInt (n : Z)
| PArr (a : ndarray).

Definition of_nat (n : nat) : float := PrimFloat.of_uint63 (Uint63.of_Z (Z.of_nat n)).

Definition fzeros (n : nat) : list float := repeat 0%float n.

(** [np.zeros(n, dtype=float64)].  An int gives a vector (a negative one is
    refused); an array is read as a sequence of dimensions, and a float64
    entry is no dimension: only the empty sequence goes through, to the 0-d
    shape (). *)
Definition np_zeros (n : pyval) : result ndarray :=
  match n with
  | PInt z => if (z <? 0)%Z then Raise ValueError else Ok (vec (fzeros (Z.to_nat z)))
  | PArr a =>
      match shape a with
      | O :: _ => Ok (scalar0 0%float)
      | _ => Raise TypeError
      end
  end.

(** [bool(arr)] of a boolean array: ambiguous above one entry, the entry
    itself for one, False for none. *)
Definition truth (bs : list bool) : result bool :=
  match bs with
  | [] => Ok false
  | [b] => Ok b
  | _ :: _ :: _ => Raise ValueError
  end.

(** [k == v] as used by the tuple comparison, then its truth value. *)
Definition dim_eq (k : nat) (v : pyval) : result bool :=
  match v with
  | PInt z => Ok (Z.eqb (Z.of_nat k) z)
  | PArr a => truth (map (fun x => PrimFloat.eqb (of_nat k) x) (data a))
  end.

(** [s != (n,)] on tuples: items are compared pairwise up to the first
    difference, and only then the lengths. *)
Definition shape_ne (s : list nat) (n : pyval) : result bool :=
  match s with
  | [] => Ok true
  | k :: rest =>
      let? same := dim_eq k n in
      Ok (if same then negb (Nat.eqb (length rest) 0) else true)
  end.

(** ['... %d ...' % (n_states, ...)] while the ValueError is built: an array
    converts to an int only when it has one entry. *)
Definition format_d (n : pyval) : result unit :=
  match n with
  | PInt _ => Ok tt
  | PArr a => if Nat.eqb (length (data a)) 1 then Ok tt else Raise TypeError
  end.

Definition shape_error {A : Type} (n : pyval) : result A :=
  let? _ := format_d n in Raise ValueError.

(** ** The model object *)

Record GaussianOutputModel : Type := mk_model {
  n_states : pyval;
  ignore_outliers : bool;
  _means : ndarray;
  _sigmas : ndarray
}.

(** Modelled from the spec: the base class [OutputModel] is not part of the
    sources; its constructor keeps [n_states] and [ignore_outliers] as they
    are given, and [n_states] is read-only afterwards. *)
Definition OutputModel_init (n : pyval) (ignore : bool) : pyval * bool := (n, ignore).

(** [GaussianOutputModel.__init__].  The arguments [means] and [sigmas] are
    given as what [np.array(., dtype=float64)] makes of them. *)
Definition __init__ (n : pyval) (means sigmas : option ndarray)
    (ignore : bool) : result GaussianOutputModel :=
  let base := OutputModel_init n ignore in
  let? m :=
    match means with
    | Some a =>
        let? bad := shape_ne (shape a) n in
        if bad then shape_error n else Ok a
    | None => np_zeros n
    end in
  let? s :=
    match sigmas with
    | Some a =>
        let a' := squeeze a in
        let? bad := shape_ne (shape a') n in
        if bad then shape_error n else Ok a'
    | None => np_zeros n
    end in
  Ok (mk_model (fst base) (snd base) m s).

(** The properties [means] and [sigmas]. *)
Definition means (self : GaussianOutputModel) : ndarray := _means self.
Definition sigmas (self : GaussianOutputModel) : ndarray := _sigmas self.

(** ** Indexing *)

(** Python's index normalisation for a sequence of length [n]. *)
Definition py_index (n : nat) (i : Z) : result nat :=
  if ((0 <=? i) && (i <? Z.of_nat n))%Z then Ok (Z.to_nat i)
  else if ((- Z.of_nat n <=? i) && (i <? 0))%Z then Ok (Z.to_nat (i + Z.of_nat n))
  else Raise IndexError.

(** [a[i]] for an int [i].  The model's parameter arrays are 0-d or 1-D
    (see [init_rank]); a 0-d array takes no index. *)
Definition getitem (a : ndarray) (i : Z) : result float :=
  match shape a with
  | [_] =>
      let? j := py_index (length (data a)) i in
      match nth_error (data a) j with
      | Some x => Ok x
      | None => Raise IndexError
      end
  | _ => Raise IndexError
  end.

(** [a[states]] for a list of ints (integer-array indexing): a new 1-D array. *)
Fixpoint take_items (a : ndarray) (states : list Z) : result (list float) :=
  match states with
  | [] => Ok []
  | i :: rest =>
      let? x := getitem a i in
      let? xs := take_items a rest in
      Ok (x :: xs)
  end.

Definition take (a : ndarray) (states : list Z) : result ndarray :=
  let? xs := take_items a states in Ok (vec xs).

(** [sub_output_model]: the two arrays are passed positionally, so they land
    in the constructor's first two slots, [n_states] and [means]. *)
Definition sub_output_model (self : GaussianOutputModel) (states : list Z)
  : result GaussianOutputModel :=
  let? m := take (_means self) states in
  let? s := take (_sigmas self) states in
  __init__ (PArr m) (Some s) None true.

(** ** The interpreter state and the method monad

    A method runs against the object it is called on, numpy's process-wide
    random state and the warnings it has issued.  An exception leaves the
    state as it was when it was raised. *)

(** The random state as an oracle: the [ctr]-th draw of the process is
    [normal ctr] when it is asked of [randn], [chisq ctr df] when it is asked
    of [chisquare(df)]. *)
Record RandomState : Type := mk_rng {
  normal : nat -> float;
  chisq : nat -> float -> float;
  ctr : nat
}.

Record world : Type := mk_world {
  self : GaussianOutputModel;
  random : RandomState;
  warned : list Z
}.

Definition M (A : Type) : Type := world -> result A * world.

Definition ret {A : Type} (a : A) : M A := fun w => (Ok a, w).

Definition bind {A B : Type} (c : M A) (k : A -> M B) : M B :=
  fun w =>
    match c w with
    | (Ok a, w') => k a w'
    | (Raise e, w') => (Raise e, w')
    end.

Definition lift {A : Type} (r : result A) : M A := fun w => (r, w).

Notation "x <- c ;; k" := (bind c (fun x => k))
  (at level 61, c at next level, right associativity).
Notation "c ;;; k" := (bind c (fun _ => k))
  (at level 61, right associativity).

Definition get_self : M GaussianOutputModel := fun w => (Ok (self w), w).

Definition with_means (w : world) (a : ndarray) : world :=
  let s := self w in
  mk_world (mk_model (n_states s) (ignore_outliers s) a (_sigmas s)) (random w) (warned w).

Definition with_sigmas (w : world) (a : ndarray) : world :=
  let s := self w in
  mk_world (mk_model (n_states s) (ignore_outliers s) (_means s) a) (random w) (warned w).

(** [self._means = a] and [self._sigmas = a]; an item assignment
    [self.means[i] = x] stores the updated array the same way. *)
Definition set_means (a : ndarray) : M unit := fun w => (Ok tt, with_means w a).

Definition set_sigmas (a : ndarray) : M unit := fun w => (Ok tt, with_sigmas w a).

(** [for x in xs: body(x)]. *)
Fixpoint for_each {A : Type} (xs : list A) (body : A -> M unit) : M unit :=
  match xs with
  | [] => ret tt
  | x :: rest => body x ;;; for_each rest body
  end.

(** A loop that also rebinds one local variable. *)
Fixpoint for_fold {A S : Type} (xs : list A) (body : A -> S -> M S) (s : S) : M S :=
  match xs with
  | [] => ret s
  | x :: rest => s' <- body x s ;; for_fold rest body s'
  end.

(** [range(n)] for an int. *)
Definition range (n : Z) : list Z := map Z.of_nat (seq 0 (Z.to_nat n)).

(** [range(v)]: an array is no int. *)
Definition py_range (v : pyval) : result (list Z) :=
  match v with
  | PInt n => Ok (range n)
  | PArr _ => Raise TypeError
  end.

(** [l[k]] on a Python list. *)
Definition list_get {A : Type} (l : list A) (k : Z) : result A :=
  let? j := py_index (length l) k in
  match nth_error l j with
  | Some x => Ok x
  | None => Raise IndexError
  end.

Fixpoint replace_nth {A : Type} (l : list A) (j : nat) (x : A) : list A :=
  match l, j with
  | [], _ => []
  | _ :: t, O => x :: t
  | h :: t, S j' => h :: replace_nth t j' x
  end.

(** [a[i] = x] on a parameter array. *)
Definition setitem (a : ndarray) (i : Z) (x : float) : result ndarray :=
  match shape a with
  | [_] =>
      let? j := py_index (length (data a)) i in
      Ok (mk_ndarray (shape a) (replace_nth (data a) j x))
  | _ => Raise IndexError
  end.

(** ** numpy reductions

    [np.dot] of two vectors, [np.sum] of a vector (which [np.mean] divides by
    the count) and the sum [np.sum(., axis=0)] forms of one column are
    numpy's: in which order they add, and whether a product is rounded before
    it is added, is decided by numpy and the BLAS behind it, not by this
    code.  They are parameters of what follows.  The one thing used of them
    is that the sum of a single entry is that entry, as it stands or added
    onto the initial 0. *)

Fixpoint map2 {A B C : Type} (f : A -> B -> C) (xs : list A) (ys : list B) : list C :=
  match xs, ys with
  | x :: xs', y :: ys' => f x y :: map2 f xs' ys'
  | _, _ => []
  end.

Record reductions : Type := mk_reductions {
  red_dot : list float -> list float -> float;
  red_sum : list float -> float;
  red_axis_sum : list float -> float;
  red_sum_one : forall x, red_sum [x] = x \/ red_sum [x] = (0 + x)%float
}.

(** The reductions taken left to right, for running the methods on inputs
    on which every order gives the same float. *)
Definition sum_left_to_right (xs : list float) : float :=
  match xs with
  | [] => 0%float
  | x :: rest => fold_left PrimFloat.add rest x
  end.

Definition dot_left_to_right (xs ys : list float) : float :=
  fold_left PrimFloat.add (map2 PrimFloat.mul xs ys) 0%float.

Definition sequential : reductions :=
  mk_reductions dot_left_to_right sum_left_to_right sum_left_to_right
                (fun x => or_introl eq_refl).

Section Numpy.

Variable np : reductions.

Local Abbreviation dot := (red_dot np).
Local Abbreviation np_sum := (red_sum np).
Local Abbreviation axis_sum := (red_axis_sum np).

Definition np_dot (xs ys : list float) : result float :=
  if Nat.eqb (length xs) (length ys) then Ok (dot xs ys) else Raise ValueError.

(** A weight matrix [ndarray(T, ncols)], row by row. *)
Record matrix : Type := mk_matrix { ncols : nat; rows : list (list float) }.

Definition wf_matrix (W : matrix) : Prop :=
  Forall (fun r => length r = ncols W) (rows W).

Definition col (W : matrix) (i : nat) : list float :=
  map (fun r => nth i r 0%float) (rows W).

(** [W[:, i]]. *)
Definition get_column (W : matrix) (i : Z) : result (list float) :=
  let? j := py_index (ncols W) i in Ok (col W j).

(** [np.sum(W, axis=0)]. *)
Definition sum_axis0 (W : matrix) : list float :=
  map (fun j => axis_sum (col W j)) (seq 0 (ncols W)).

(** [w += v] for a 1-D [v]: [v] must have the length of [w] or length one. *)
Definition iadd (w : ndarray) (v : list float) : result ndarray :=
  match shape w with
  | [_] =>
      if Nat.eqb (length v) (length (data w))
      then Ok (mk_ndarray (shape w) (map2 PrimFloat.add (data w) v))
      else match v with
           | [x] => Ok (mk_ndarray (shape w) (map (fun y => PrimFloat.add y x) (data w)))
           | _ => Raise ValueError
           end
  | _ => Raise ValueError
  end.

(** [a /= w] for two arrays made by the same [np.zeros(N)].  A division by
    zero gives an infinity or NaN entry and no exception; the RuntimeWarning
    numpy issues for it is not recorded. *)
Definition idiv (a w : ndarray) : result ndarray :=
  if Nat.eqb (length (data a)) (length (data w))
  then Ok (mk_ndarray (shape a) (map2 PrimFloat.div (data a) (data w)))
  else Raise ValueError.

(** [np.finfo(np.float64).eps]. *)
Definition eps : float := 0x1p-52%float.

Definition below_eps (x : float) : bool := PrimFloat.ltb x eps.

(** ** [fit] *)

(** [(x - mu) ** 2]; numpy squares by one multiplication. *)
Definition sq_dev (mu x : float) : float :=
  let d := (x - mu)%float in (d * d)%float.

(** [self.means[i] += np.dot(weights[k][:, i], observations[k])]. *)
Definition add_to_mean (observations : list (list float)) (weights : list matrix)
    (k i : Z) : M unit :=
  s <- get_self ;;
  old <- lift (getitem (means s) i) ;;
  W <- lift (list_get weights k) ;;
  c <- lift (get_column W i) ;;
  o <- lift (list_get observations k) ;;
  d <- lift (np_dot c o) ;;
  a <- lift (setitem (means s) i (old + d)%float) ;;
  set_means a.

(** [Y = (observations[k] - self.means[i]) ** 2] and
    [self.sigmas[i] += np.dot(weights[k][:, i], Y)]. *)
Definition add_to_sigma (observations : list (list float)) (weights : list matrix)
    (k i : Z) : M unit :=
  o <- lift (list_get observations k) ;;
  s <- get_self ;;
  mu <- lift (getitem (means s) i) ;;
  let Y := map (sq_dev mu) o in
  old <- lift (getitem (sigmas s) i) ;;
  W <- lift (list_get weights k) ;;
  c <- lift (get_column W i) ;;
  d <- lift (np_dot c Y) ;;
  a <- lift (setitem (sigmas s) i (old + d)%float) ;;
  set_sigmas a.

(** One round of either loop over [k]: the loop over the states, then
    [w_sum += np.sum(weights[k], axis=0)]. *)
Definition fit_round (step : Z -> Z -> M unit) (N : pyval) (weights : list matrix)
    (k : Z) (w_sum : ndarray) : M ndarray :=
  idx <- lift (py_range N) ;;
  for_each idx (step k) ;;;
  W <- lift (list_get weights k) ;;
  lift (iadd w_sum (sum_axis0 W)).

Definition fit (observations : list (list float)) (weights : list matrix) : M unit :=
  s0 <- get_self ;;
  let N := n_states s0 in
  let K := Z.of_nat (length observations) in
  (* fit means *)
  z <- lift (np_zeros N) ;;
  set_means z ;;;
  w0 <- lift (np_zeros N) ;;
  w_sum <- for_fold (range K) (fit_round (add_to_mean observations weights) N weights) w0 ;;
  s1 <- get_self ;;
  m <- lift (idiv (means s1) w_sum) ;;
  set_means m ;;;
  (* fit variances *)
  z' <- lift (np_zeros N) ;;
  set_sigmas z' ;;;
  w0' <- lift (np_zeros N) ;;
  w_sum' <- for_fold (range K) (fit_round (add_to_sigma observations weights) N weights) w0' ;;
  s2 <- get_self ;;
  v <- lift (idiv (sigmas s2) w_sum') ;;
  set_sigmas v ;;;
  s3 <- get_self ;;
  set_sigmas (mk_ndarray (shape (sigmas s3)) (map PrimFloat.sqrt (data (sigmas s3)))) ;;;
  s4 <- get_self ;;
  if existsb below_eps (data (_sigmas s4)) then lift (Raise RuntimeError) else ret tt.

(** ** Random draws and warnings *)

Definition advance (r : RandomState) : RandomState :=
  mk_rng (normal r) (chisq r) (S (ctr r)).

(** [np.random.randn()]. *)
Definition randn : M float :=
  fun w => (Ok (normal (random w) (ctr (random w))),
            mk_world (self w) (advance (random w)) (warned w)).

(** [np.random.chisquare(df)]. *)
Definition chisquare (df : float) : M float :=
  fun w => (Ok (chisq (random w) (ctr (random w)) df),
            mk_world (self w) (advance (random w)) (warned w)).

(** [np.random.randn(nobs)]: [nobs] draws in a row. *)
Fixpoint randn_n (nobs : nat) : M (list float) :=
  match nobs with
  | O => ret []
  | S n => z <- randn ;; zs <- randn_n n ;; ret (z :: zs)
  end.

(** [warnings.warn(...)] under the default filters: the warning is recorded
    (here by the state index it names) and execution goes on.  [warned] holds
    the warnings of these calls only, not the RuntimeWarnings numpy itself
    issues on a division by zero or an invalid value. *)
Definition warn (state_index : Z) : M unit :=
  fun w => (Ok tt, mk_world (self w) (random w) (warned w ++ [state_index])).

(** [np.mean] of a 1-D array. *)
Definition np_mean (xs : list float) : float :=
  (np_sum xs / of_nat (length xs))%float.

(** ** [sample] *)

(** The body of the loop over [state_index]. *)
Definition sample_state (observations : list (list float)) (state_index : Z) : M unit :=
  observations_in_state <- lift (list_get observations state_index) ;;
  let nsamples_in_state := length observations_in_state in
  (if Nat.eqb nsamples_in_state 0 then warn state_index else ret tt) ;;;
  (if Nat.ltb 0 nsamples_in_state then
     z <- randn ;;
     s <- get_self ;;
     sg <- lift (getitem (sigmas s) state_index) ;;
     let mu := (z * sg / PrimFloat.sqrt (of_nat nsamples_in_state)
                + np_mean observations_in_state)%float in
     a <- lift (setitem (means s) state_index mu) ;;
     set_means a
   else ret tt) ;;;
  (if Nat.ltb 1 nsamples_in_state then
     chisquared <- chisquare (of_nat (nsamples_in_state - 1)) ;;
     s <- get_self ;;
     mu <- lift (getitem (means s) state_index) ;;
     let sigmahat2 :=
       np_mean (map (sq_dev mu) observations_in_state) in
     a <- lift (setitem (sigmas s) state_index
                  (PrimFloat.sqrt sigmahat2
                   / PrimFloat.sqrt (chisquared / of_nat nsamples_in_state))%float) ;;
     set_sigmas a
   else ret tt).

Definition sample (observations : list (list float)) : M unit :=
  s <- get_self ;;
  idx <- lift (py_range (n_states s)) ;;
  for_each idx (sample_state observations).

(** ** The generators *)

Definition generate_observation_from_state (state_index : Z) : M float :=
  s <- get_self ;;
  sg <- lift (getitem (sigmas s) state_index) ;;
  z <- randn ;;
  mu <- lift (getitem (means s) state_index) ;;
  ret (sg * z + mu)%float.

Definition generate_observations_from_state (state_index : Z) (nobs : Z)
  : M (list float) :=
  s <- get_self ;;
  sg <- lift (getitem (sigmas s) state_index) ;;
  zs <- (if (nobs <? 0)%Z then lift (Raise ValueError) else randn_n (Z.to_nat nobs)) ;;
  mu <- lift (getitem (means s) state_index) ;;
  ret (map (fun z => (sg * z + mu)%float) zs).

(** The loop of [generate_observation_trajectory] fills [o_t] in place; [t]
    is the position reached and [todo] the states from there on. *)
Fixpoint trajectory_loop (todo : list Z) (t : nat) (o_t : list float) : M (list float) :=
  match todo with
  | [] => ret o_t
  | s :: rest =>
      m <- get_self ;;
      sg <- lift (getitem (sigmas m) s) ;;
      z <- randn ;;
      mu <- lift (getitem (means m) s) ;;
      trajectory_loop rest (S t) (replace_nth o_t t (sg * z + mu)%float)
  end.

Definition generate_observation_trajectory (s_t : list Z) : M (list float) :=
  let T := length s_t in
  trajectory_loop s_t 0 (fzeros T).

(** ** The estimates of [fit] in closed form

    The sums of the EM update, state by state, with the additions in the
    order of the loops. *)

(** [Σ_t W[t, i] · f(o[t])], as [np.dot] gives it. *)
Definition weighted (f : float -> float) (W : matrix) (o : list float) (i : nat) : float :=
  dot (map (fun row => nth i row 0%float) (rows W)) (map f o).

(** [Σ_k Σ_t weights[k][t, i] · f(observations[k][t])]. *)
Definition weighted_sum (f : float -> float) (observations : list (list float))
    (weights : list matrix) (i : nat) : float :=
  fold_left (fun acc ow => (acc + weighted f (snd ow) (fst ow) i)%float)
            (combine observations weights) 0%float.

(** [Σ_k Σ_t weights[k][t, i]], the inner sum as [np.sum(., axis=0)] gives it. *)
Definition weight_total (weights : list matrix) (i : nat) : float :=
  fold_left
    (fun acc W => (acc + axis_sum (map (fun row => nth i row 0%float) (rows W)))%float)
    weights 0%float.

Definition fit_mean (observations : list (list float)) (weights : list matrix)
    (i : nat) : float :=
  (weighted_sum (fun x => x) observations weights i / weight_total weights i)%float.

Definition fit_sigma (observations : list (list float)) (weights : list matrix)
    (i : nat) : float :=
  PrimFloat.sqrt
    (weighted_sum
       (fun x => ((x - fit_mean observations weights i)
                  * (x - fit_mean observations weights i))%float)
       observations weights i
     / weight_total weights i)%float.

Definition fit_means (n : nat) (observations : list (list float)) (weights : list matrix)
  : list float := map (fit_mean observations weights) (seq 0 n).

Definition fit_sigmas (n : nat) (observations : list (list float)) (weights : list matrix)
  : list float := map (fit_sigma observations weights) (seq 0 n).

(** [W] is a weight matrix for the trajectory [o] and [n] states:
    an [ndarray(len(o), n)]. *)
Definition matrix_for (n : nat) (o : list float) (W : matrix) : Prop :=
  ncols W = n /\ length (rows W) = length o /\ wf_matrix W.

(** ** The draws of [sample] in closed form *)

(** How many draws a state with the observations [o] takes. *)
Definition draws (o : list float) : nat :=
  match o with
  | [] => 0
  | [_] => 1
  | _ :: _ :: _ => 2
  end.

(** The mean drawn at position [c] of the random state: a normal draw scaled
    by [sg / sqrt(n)] about the empirical mean, the sum over the count. *)
Definition new_mean (r : RandomState) (c : nat) (sg : float) (o : list float) : float :=
  (normal r c * sg / PrimFloat.sqrt (of_nat (length o))
   + np_sum o / of_nat (length o))%float.

(** The sigma drawn next, about the mean [mu]. *)
Definition new_sigma (r : RandomState) (c : nat) (mu : float) (o : list float) : float :=
  (PrimFloat.sqrt (np_sum (map (fun x => (x - mu) * (x - mu)) o) / of_nat (length o))
   / PrimFloat.sqrt (chisq r (S c) (of_nat (length o - 1)) / of_nat (length o)))%float.

Definition sampled_mean (r : RandomState) (c : nat) (mu sg : float) (o : list float)
  : float :=
  match o with
  | [] => mu
  | _ :: _ => new_mean r c sg o
  end.

Definition sampled_sigma (r : RandomState) (c : nat) (sg : float) (o : list float)
  : float :=
  match o with
  | [] | [_] => sg
  | _ :: _ :: _ => new_sigma r c (new_mean r c sg o) o
  end.

(** The draws taken by the states before state [i]. *)
Definition draws_before (observations : list (list float)) (i : nat) : nat :=
  fold_right (fun o acc => (draws o + acc)%nat) 0%nat (firstn i observations).

(** The parameters after the loop, state by state, from position [c] of the
    random state. *)
Fixpoint sample_means (r : RandomState) (c : nat) (ms ss : list float)
    (obs : list (list float)) : list float :=
  match ms, ss, obs with
  | mu :: ms', sg :: ss', o :: obs' =>
      sampled_mean r c mu sg o :: sample_means r (c + draws o) ms' ss' obs'
  | _, _, _ => []
  end.

Fixpoint sample_sigmas (r : RandomState) (c : nat) (ss : list float)
    (obs : list (list float)) : list float :=
  match ss, obs with
  | sg :: ss', o :: obs' =>
      sampled_sigma r c sg o :: sample_sigmas r (c + draws o) ss' obs'
  | _, _ => []
  end.

(** The states from [a] on that have no observation. *)
Fixpoint empty_states (a : nat) (obs : list (list float)) : list Z :=
  match obs with
  | [] => []
  | o :: obs' =>
      (if Nat.eqb (length o) 0 then [Z.of_nat a] else []) ++ empty_states (S a) obs'
  end.

(** The invariant of the data model: an int [n_states] and two vectors of
    that length. *)
Definition well_formed (n : nat) (w : world) : Prop :=
  n_states (self w) = PInt (Z.of_nat n)
  /\ shape (means (self w)) = [n] /\ length (data (means (self w))) = n
  /\ shape (sigmas (self w)) = [n] /\ length (data (sigmas (self w))) = n.

(** The entry a valid Python index [s] selects. *)
Definition py_nth (xs : list float) (s : Z) : float :=
  nth (Z.to_nat (if (s <? 0)%Z then s + Z.of_nat (length xs) else s)%Z) xs 0%float.

(** The observation emitted for the hidden state [s] from the draw at position
    [c]: [sigmas[s] * Z + means[s]]. *)
Definition emitted (m : GaussianOutputModel) (r : RandomState) (c : nat) (s : Z) : float :=
  (py_nth (data (sigmas m)) s * normal r c + py_nth (data (means m)) s)%float.

Fixpoint emitted_from (m : GaussianOutputModel) (r : RandomState) (c : nat)
    (todo : list Z) : list float :=
  match todo with
  | [] => []
  | s :: rest => emitted m r c s :: emitted_from m r (S c) rest
  end.

(** An array whose entries are as many as its shape says. *)
Definition wf_ndarray (a : ndarray) : Prop :=
  length (data a) = fold_right Nat.mul 1%nat (shape a).

(** ** Concrete inputs *)

(** The model of the docstrings. *)
Definition doc_model : GaussianOutputModel :=
  mk_model (PInt 3) true (vec [-1; 0; 1]%float) (vec [0.5; 1; 2]%float).

(** A random state whose normal draws are all 0.5 and whose chi-squared
    draws are all 1. *)
Definition fixed_draws : RandomState :=
  mk_rng (fun _ => 0.5%float) (fun _ _ => 1%float) 0.

(** A one-state model with mean 0 and sigma 1, before any call. *)
Definition one_state_world : world :=
  mk_world (mk_model (PInt 1) true (vec [0%float]) (vec [1%float])) fixed_draws [].

(** Two states, two trajectories. *)
Definition two_state_world : world :=
  mk_world (mk_model (PInt 2) true (vec [0; 0]%float) (vec [1; 1]%float)) fixed_draws [].

Definition two_observations : list (list float) :=
  [[1; 2; 4; 5]%float; [3]%float].

(** Each observation belongs to one state with weight one: 1 and 2 to state
    0, the others to state 1.  Every product and every sum of the update is
    then exact, whatever the order of the additions. *)
Definition two_weights : list matrix :=
  [mk_matrix 2 [[1; 0]; [1; 0]; [0; 1]; [0; 1]]%float; mk_matrix 2 [[0; 1]%float]].


(** Three states: two observations, none, one. *)
Definition three_state_world : world :=
  mk_world doc_model fixed_draws [].

Definition three_observations : list (list float) :=
  [[1; 2]%float; []; [5]%float].

(** * Properties *)

(** ** The constructor *)

Lemma rbind_ok {A B : Type} (r : result A) (k : A -> result B) (b : B) :
  rbind r k = Ok b -> exists a, r = Ok a /\ k a = Ok b.
Proof. destruct r; simpl; [eauto | discriminate]. Qed.

Lemma shape_ne_int (k : nat) (z : Z) :
  shape_ne [k] (PInt z) = Ok (negb (Z.eqb (Z.of_nat k) z)).
Proof.
  unfold shape_ne, dim_eq, rbind; simpl.
  destruct (Z.eqb (Z.of_nat k) z); reflexivity.
Qed.

Lemma shape_ne_rank (s : list nat) (n : pyval) :
  shape_ne s n = Ok false -> exists k, s = [k].
Proof.
  destruct s as [|k rest]; simpl; [discriminate|].
  unfold rbind. destruct (dim_eq k n) as [[|]|]; try discriminate.
  destruct rest; simpl; [eauto | discriminate].
Qed.

(** Whatever the constructor stores is a vector or a 0-d array. *)
Lemma init_rank (n : pyval) (ms ss : option ndarray) (ig : bool) (r : GaussianOutputModel) :
  __init__ n ms ss ig = Ok r ->
  (length (shape (_means r)) <= 1)%nat /\ (length (shape (_sigmas r)) <= 1)%nat.
Proof.
  assert (Z0 : forall a, np_zeros n = Ok a -> (length (shape a) <= 1)%nat).
  { intros a. unfold np_zeros. destruct n as [z|b].
    - destruct (z <? 0)%Z; [discriminate|]. intros [= <-]. simpl. lia.
    - destruct (shape b) as [|[|d] t]; try discriminate. intros [= <-]. simpl. lia. }
  assert (C : forall a b, (let? bad := shape_ne (shape a) n in
                           if bad then shape_error n else Ok a) = Ok b ->
                          (length (shape b) <= 1)%nat).
  { intros a b. destruct (shape_ne (shape a) n) as [[|]|] eqn:E; simpl.
    - unfold shape_error, rbind. destruct (format_d n); discriminate.
    - intros [= <-]. destruct (shape_ne_rank _ _ E) as [k ->]. simpl. lia.
    - discriminate. }
  unfold __init__. intros H.
  apply rbind_ok in H as (m & Hm & H).
  apply rbind_ok in H as (s & Hs & H).
  injection H as <-. simpl. split.
  - destruct ms; [eapply C | apply Z0]; eassumption.
  - destruct ss; [eapply C | apply Z0]; eassumption.
Qed.

(** X1: A vector whose length is not [n_states] is refused with a ValueError, as
    means whatever the sigmas are, and as sigmas when the means are omitted. *)
Lemma init_length_mismatch (n : nat) (xs : list float) (other : option ndarray) (ig : bool) :
  length xs <> n ->
  __init__ (PInt (Z.of_nat n)) (Some (vec xs)) other ig = Raise ValueError
  /\ __init__ (PInt (Z.of_nat n)) None (Some (vec xs)) ig = Raise ValueError.
Proof.
  intros Hn. split.
  - unfold __init__. simpl shape. rewrite shape_ne_int.
    destruct (Z.eqb_spec (Z.of_nat (length xs)) (Z.of_nat n)) as [E|E]; [lia|]. reflexivity.
  - unfold __init__, np_zeros.
    destruct (Z.ltb_spec (Z.of_nat n) 0); [lia|]. simpl rbind.
    unfold squeeze. simpl shape. simpl filter.
    destruct (Nat.eqb_spec (length xs) 1) as [E1|E1]; simpl.
    + reflexivity.
    + destruct (Z.eqb_spec (Z.of_nat (length xs)) (Z.of_nat n)) as [E|E]; [lia|]. reflexivity.
Qed.

(** Omitted arrays default to zero vectors of length [n_states]. *)
Lemma init_defaults (n : nat) (ig : bool) :
  __init__ (PInt (Z.of_nat n)) None None ig
  = Ok (mk_model (PInt (Z.of_nat n)) ig (vec (fzeros n)) (vec (fzeros n))).
Proof.
  unfold __init__, np_zeros. destruct (Z.ltb_spec (Z.of_nat n) 0); [lia|].
  rewrite Nat2Z.id. reflexivity.
Qed.

(** X2: For every [n_states] other than one, a means and a sigmas vector of
    length [n_states] are accepted and stored exactly as given. *)
Lemma init_roundtrip (n : nat) (ms ss : list float) (ig : bool) :
  length ms = n -> length ss = n -> n <> 1%nat ->
  __init__ (PInt (Z.of_nat n)) (Some (vec ms)) (Some (vec ss)) ig
  = Ok (mk_model (PInt (Z.of_nat n)) ig (vec ms) (vec ss)).
Proof.
  intros Hm Hs Hn. unfold __init__. simpl shape. rewrite shape_ne_int, Hm, Z.eqb_refl.
  simpl rbind. unfold squeeze. simpl shape. simpl filter. rewrite Hs.
  destruct (Nat.eqb_spec n 1) as [E|E]; [contradiction|]. simpl negb. cbv iota.
  simpl shape. rewrite shape_ne_int, Z.eqb_refl. simpl. unfold vec. rewrite Hs. reflexivity.
Qed.

(** C5, on the code: with [n_states = 1] the constructor refuses a means and
    a sigmas vector of length one, the documented shape [(n_states,)]: the
    squeeze turns the sigmas into a 0-d array, whose shape [()] fails the
    check.  The claim has such a construction succeed. *)
Theorem init_single_state_rejected :
  __init__ (PInt 1) (Some (vec [0%float])) (Some (vec [1%float])) true = Raise ValueError.
Proof. reflexivity. Qed.

(** C10, as stated, fails for one state: a sigmas array of shape (1, 1) is
    squeezed to shape [()] and refused. *)
Lemma init_column_sigmas_single_state :
  ~ (exists m, __init__ (PInt 1) None (Some (column [0.5%float])) true = Ok m)
  /\ __init__ (PInt 1) None (Some (column [0.5%float])) true = Raise ValueError.
Proof.
  split; [|reflexivity]. intros [m H]. discriminate H.
Qed.

(** C10, amended: the sigmas argument is squeezed before its shape is checked
    and the means argument is not.  For every [n_states] other than one, a
    sigmas array of shape (n_states, 1) is accepted and stored as the vector
    of its entries; for every [n_states], a means array of shape
    (n_states, 1) is refused with a ValueError. *)
Theorem init_column_asymmetry (n : nat) (ms ss : list float) (ig : bool) :
  length ms = n -> length ss = n ->
  (n <> 1%nat ->
   __init__ (PInt (Z.of_nat n)) (Some (vec ms)) (Some (column ss)) ig
   = Ok (mk_model (PInt (Z.of_nat n)) ig (vec ms) (vec ss)))
  /\ (forall sg, __init__ (PInt (Z.of_nat n)) (Some (column ms)) sg ig = Raise ValueError).
Proof.
  intros Hm Hs. split.
  - intros Hn. unfold __init__. simpl shape. rewrite shape_ne_int, Hm, Z.eqb_refl.
    simpl rbind. unfold squeeze. simpl shape. simpl filter. rewrite Hs.
    destruct (Nat.eqb_spec n 1) as [E|E]; [contradiction|]. simpl negb. cbv iota.
    simpl shape. rewrite shape_ne_int, Z.eqb_refl. simpl. unfold vec. rewrite Hs. reflexivity.
  - intros sg. unfold __init__. simpl shape. unfold shape_ne, dim_eq. simpl rbind.
    rewrite Hm, Z.eqb_refl. reflexivity.
Qed.

Lemma init_column_asymmetry_witness :
  __init__ (PInt 2) (Some (vec [-1; 1]%float)) (Some (column [0.5; 2]%float)) true
  = Ok (mk_model (PInt 2) true (vec [-1; 1]%float) (vec [0.5; 2]%float))
  /\ __init__ (PInt 2) (Some (column [-1; 1]%float)) (Some (vec [0.5; 2]%float)) true
     = Raise ValueError.
Proof.
  destruct (init_column_asymmetry 2 [-1; 1]%float [0.5; 2]%float true
              eq_refl eq_refl) as [A B].
  split.
  - apply A. discriminate.
  - apply B.
Defined.

(** ** [sub_output_model] *)

(** C1, on the code: the parent's means arrive as [n_states] and its sigmas as
    [means], so no sub-model is built.  For the states 0 and 1 the shape check
    compares an int with a two-entry array, whose truth value is ambiguous.
    For state 2 alone, whose mean is 1, the check passes with the parent's
    sigma as the mean, and [np.zeros] then refuses the array as a length. *)
Theorem sub_output_model_raises :
  sub_output_model doc_model [0; 1]%Z = Raise ValueError
  /\ sub_output_model doc_model [2]%Z = Raise TypeError.
Proof. split; reflexivity. Qed.

(** X5: [sub_output_model] raises for every parent and every list of states:
    it never returns a model. *)
Lemma sub_output_model_never_returns (m : GaussianOutputModel) (states : list Z) :
  exists e, sub_output_model m states = Raise e.
Proof.
  unfold sub_output_model, take.
  destruct (take_items (_means m) states) as [xs|e]; simpl; [|eauto].
  destruct (take_items (_sigmas m) states) as [ys|e]; simpl; [|eauto].
  unfold __init__. simpl shape. unfold shape_ne, dim_eq. simpl data.
  destruct xs as [|x [|x' xs]]; simpl.
  - eauto.
  - destruct (PrimFloat.eqb (of_nat (length ys)) x); simpl; eauto.
  - eauto.
Qed.

(** ** Indexing and list lemmas *)

Lemma py_index_nat (n j : nat) : (j < n)%nat -> py_index n (Z.of_nat j) = Ok j.
Proof.
  intros H. unfold py_index.
  destruct (Z.leb_spec 0 (Z.of_nat j)); [|lia].
  destruct (Z.ltb_spec (Z.of_nat j) (Z.of_nat n)); [|lia].
  simpl. rewrite Nat2Z.id. reflexivity.
Qed.

Lemma nth_error_mid {A : Type} (pre post : list A) (x : A) :
  nth_error (pre ++ x :: post) (length pre) = Some x.
Proof. induction pre; simpl; auto. Qed.

Lemma replace_nth_mid {A : Type} (pre post : list A) (x y : A) :
  replace_nth (pre ++ x :: post) (length pre) y = pre ++ y :: post.
Proof. induction pre; simpl; [reflexivity | now rewrite IHpre]. Qed.

Lemma getitem_mid (sh : nat) (pre post : list float) (x : float) :
  getitem (mk_ndarray [sh] (pre ++ x :: post)) (Z.of_nat (length pre)) = Ok x.
Proof.
  unfold getitem. simpl shape. simpl data.
  rewrite py_index_nat by (rewrite length_app; simpl; lia).
  simpl. rewrite nth_error_mid. reflexivity.
Qed.

Lemma setitem_mid (sh : nat) (pre post : list float) (x y : float) :
  setitem (mk_ndarray [sh] (pre ++ x :: post)) (Z.of_nat (length pre)) y
  = Ok (mk_ndarray [sh] (pre ++ y :: post)).
Proof.
  unfold setitem. simpl shape. simpl data.
  rewrite py_index_nat by (rewrite length_app; simpl; lia).
  simpl. rewrite replace_nth_mid. reflexivity.
Qed.

Lemma list_get_mid {A : Type} (pre post : list A) (x : A) :
  list_get (pre ++ x :: post) (Z.of_nat (length pre)) = Ok x.
Proof.
  unfold list_get.
  rewrite py_index_nat by (rewrite length_app; simpl; lia).
  simpl. rewrite nth_error_mid. reflexivity.
Qed.

Lemma get_column_nat (W : matrix) (i : nat) :
  (i < ncols W)%nat -> get_column W (Z.of_nat i) = Ok (col W i).
Proof. intros H. unfold get_column. rewrite py_index_nat by assumption. reflexivity. Qed.

Lemma length_col (W : matrix) (i : nat) : length (col W i) = length (rows W).
Proof. unfold col. apply length_map. Qed.

Lemma np_dot_col (W : matrix) (i : nat) (o : list float) :
  length (rows W) = length o -> np_dot (col W i) o = Ok (dot (col W i) o).
Proof. intros H. unfold np_dot. rewrite length_col, H, Nat.eqb_refl. reflexivity. Qed.

Lemma range_nat (n : nat) : range (Z.of_nat n) = map Z.of_nat (seq 0 n).
Proof. unfold range. rewrite Nat2Z.id. reflexivity. Qed.

Lemma map2_map_seq {A B C : Type} (f : A -> B -> C) (g : nat -> A) (h : nat -> B) (a n : nat) :
  map2 f (map g (seq a n)) (map h (seq a n)) = map (fun i => f (g i) (h i)) (seq a n).
Proof. revert a. induction n; intros a; simpl; [reflexivity | now rewrite IHn]. Qed.

Lemma length_map2 {A B C : Type} (f : A -> B -> C) (xs : list A) (ys : list B) :
  length xs = length ys -> length (map2 f xs ys) = length xs.
Proof.
  revert ys. induction xs as [|x xs IH]; intros [|y ys]; simpl; try discriminate; auto.
Qed.

(** ** The loops of [fit] *)

Ltac run_step :=
  unfold bind at 1; unfold get_self, lift, set_means, set_sigmas, means, sigmas,
    with_means, with_sigmas; cbn [self _means _sigmas n_states ignore_outliers random warned].

Lemma add_to_mean_step (observations : list (list float)) (weights : list matrix)
    (k : Z) (W : matrix) (o : list float) (N : pyval) (ig : bool) (sg : ndarray)
    (r : RandomState) (wd : list Z) (sh : nat) (pre post : list float) (x : float) :
  list_get weights k = Ok W -> list_get observations k = Ok o ->
  length (rows W) = length o -> (length pre < ncols W)%nat ->
  add_to_mean observations weights k (Z.of_nat (length pre))
    (mk_world (mk_model N ig (mk_ndarray [sh] (pre ++ x :: post)) sg) r wd)
  = (Ok tt,
     mk_world (mk_model N ig
       (mk_ndarray [sh] (pre ++ (x + dot (col W (length pre)) o)%float :: post)) sg) r wd).
Proof.
  intros HW Ho Hlen Hi. unfold add_to_mean. repeat run_step.
  rewrite getitem_mid, HW, get_column_nat, Ho, np_dot_col, setitem_mid by assumption.
  reflexivity.
Qed.

(** The loop over the states inside round [k] of the first pass: the states
    from [length pre] on each receive their dot product. *)
Lemma add_to_mean_loop (observations : list (list float)) (weights : list matrix)
    (k : Z) (W : matrix) (o : list float) (N : pyval) (ig : bool) (sg : ndarray)
    (r : RandomState) (wd : list Z) (sh : nat) :
  list_get weights k = Ok W -> list_get observations k = Ok o ->
  length (rows W) = length o ->
  forall (post pre : list float) (a : nat),
    a = length pre -> (a + length post <= ncols W)%nat ->
    for_each (map Z.of_nat (seq a (length post))) (add_to_mean observations weights k)
      (mk_world (mk_model N ig (mk_ndarray [sh] (pre ++ post)) sg) r wd)
    = (Ok tt,
       mk_world (mk_model N ig
         (mk_ndarray [sh]
            (pre ++ map2 PrimFloat.add post
                      (map (fun i => dot (col W i) o) (seq a (length post))))) sg) r wd).
Proof.
  intros HW Ho Hlen. induction post as [|x post IH]; intros pre a Ha Hb.
  - reflexivity.
  - simpl length in *. simpl seq. simpl map. simpl for_each.
    unfold bind at 1. subst a.
    rewrite (@add_to_mean_step observations weights k W o N ig sg r wd sh pre post x
               HW Ho Hlen) by lia.
    specialize (IH (pre ++ [(x + dot (col W (length pre)) o)%float]) (S (length pre))).
    rewrite <- !app_assoc in IH. simpl app in IH.
    rewrite IH.
    + reflexivity.
    + rewrite length_app. simpl. lia.
    + lia.
Qed.

Lemma add_to_sigma_step (observations : list (list float)) (weights : list matrix)
    (k : Z) (W : matrix) (o : list float) (N : pyval) (ig : bool) (ms : list float)
    (r : RandomState) (wd : list Z) (sh shm : nat) (pre post : list float) (x : float) :
  list_get weights k = Ok W -> list_get observations k = Ok o ->
  length (rows W) = length o -> (length pre < ncols W)%nat ->
  (length pre < length ms)%nat ->
  add_to_sigma observations weights k (Z.of_nat (length pre))
    (mk_world (mk_model N ig (mk_ndarray [shm] ms) (mk_ndarray [sh] (pre ++ x :: post))) r wd)
  = (Ok tt,
     mk_world (mk_model N ig (mk_ndarray [shm] ms)
       (mk_ndarray [sh]
          (pre ++ (x + dot (col W (length pre))
                         (map (sq_dev (nth (length pre) ms 0%float)) o))%float
               :: post))) r wd).
Proof.
  intros HW Ho Hlen Hi Hm. unfold add_to_sigma. repeat run_step.
  rewrite Ho.
  assert (G : getitem (mk_ndarray [shm] ms) (Z.of_nat (length pre))
              = Ok (nth (length pre) ms 0%float)).
  { unfold getitem. simpl shape. simpl data. rewrite py_index_nat by assumption.
    simpl. destruct (nth_error ms (length pre)) eqn:E.
    - now rewrite (nth_error_nth _ _ _ E).
    - apply nth_error_None in E. lia. }
  rewrite G, getitem_mid, HW, get_column_nat by assumption.
  rewrite np_dot_col by (rewrite length_map; assumption).
  rewrite setitem_mid. reflexivity.
Qed.

Lemma add_to_sigma_loop (observations : list (list float)) (weights : list matrix)
    (k : Z) (W : matrix) (o : list float) (N : pyval) (ig : bool) (ms : list float)
    (r : RandomState) (wd : list Z) (sh shm : nat) :
  list_get weights k = Ok W -> list_get observations k = Ok o ->
  length (rows W) = length o ->
  forall (post pre : list float) (a : nat),
    a = length pre -> (a + length post <= ncols W)%nat ->
    (a + length post <= length ms)%nat ->
    for_each (map Z.of_nat (seq a (length post))) (add_to_sigma observations weights k)
      (mk_world (mk_model N ig (mk_ndarray [shm] ms) (mk_ndarray [sh] (pre ++ post))) r wd)
    = (Ok tt,
       mk_world (mk_model N ig (mk_ndarray [shm] ms)
         (mk_ndarray [sh]
            (pre ++ map2 PrimFloat.add post
               (map (fun i => dot (col W i) (map (sq_dev (nth i ms 0%float)) o))
                    (seq a (length post)))))) r wd).
Proof.
  intros HW Ho Hlen. induction post as [|x post IH]; intros pre a Ha Hb Hc.
  - reflexivity.
  - simpl length in *. simpl seq. simpl map. simpl for_each.
    unfold bind at 1. subst a.
    rewrite (@add_to_sigma_step observations weights k W o N ig ms r wd sh shm pre post x
               HW Ho Hlen) by lia.
    match goal with
    | |- context [pre ++ ?y :: post] =>
        specialize (IH (pre ++ [y]) (S (length pre)))
    end.
    rewrite <- !app_assoc in IH. simpl app in IH.
    rewrite IH.
    + reflexivity.
    + rewrite length_app. simpl. lia.
    + lia.
    + lia.
Qed.

Lemma iadd_same (shw : nat) (ws v : list float) :
  length v = length ws ->
  iadd (mk_ndarray [shw] ws) v = Ok (mk_ndarray [shw] (map2 PrimFloat.add ws v)).
Proof. intros H. unfold iadd. simpl. rewrite H, Nat.eqb_refl. reflexivity. Qed.

Lemma length_sum_axis0 (W : matrix) : length (sum_axis0 W) = ncols W.
Proof. unfold sum_axis0. now rewrite length_map, length_seq. Qed.

Lemma fit_round_mean (observations : list (list float)) (weights : list matrix)
    (k : Z) (W : matrix) (o : list float) (n : nat) (ig : bool) (sg : ndarray)
    (r : RandomState) (wd : list Z) (sh shw : nat) (ms ws : list float) :
  list_get weights k = Ok W -> list_get observations k = Ok o ->
  matrix_for n o W -> length ms = n -> length ws = n ->
  fit_round (add_to_mean observations weights) (PInt (Z.of_nat n)) weights k
    (mk_ndarray [shw] ws)
    (mk_world (mk_model (PInt (Z.of_nat n)) ig (mk_ndarray [sh] ms) sg) r wd)
  = (Ok (mk_ndarray [shw] (map2 PrimFloat.add ws (sum_axis0 W))),
     mk_world (mk_model (PInt (Z.of_nat n)) ig
       (mk_ndarray [sh]
          (map2 PrimFloat.add ms (map (fun i => dot (col W i) o) (seq 0 n)))) sg) r wd).
Proof.
  intros HW Ho (Hc & Hr & _) Hm Hw. unfold fit_round, py_range.
  rewrite range_nat. run_step. unfold bind at 1. rewrite <- Hm at 1.
  pose proof (@add_to_mean_loop observations weights k W o (PInt (Z.of_nat n)) ig sg r wd sh
                HW Ho Hr ms [] 0%nat eq_refl) as L.
  simpl app in L. rewrite L by (simpl; lia). clear L.
  run_step. rewrite HW.
  rewrite iadd_same by (rewrite length_sum_axis0; lia).
  simpl app. rewrite Hm. reflexivity.
Qed.

Lemma fit_round_sigma (observations : list (list float)) (weights : list matrix)
    (k : Z) (W : matrix) (o : list float) (n : nat) (ig : bool) (ms : list float)
    (r : RandomState) (wd : list Z) (sh shm shw : nat) (ss ws : list float) :
  list_get weights k = Ok W -> list_get observations k = Ok o ->
  matrix_for n o W -> length ms = n -> length ss = n -> length ws = n ->
  fit_round (add_to_sigma observations weights) (PInt (Z.of_nat n)) weights k
    (mk_ndarray [shw] ws)
    (mk_world (mk_model (PInt (Z.of_nat n)) ig (mk_ndarray [shm] ms) (mk_ndarray [sh] ss)) r wd)
  = (Ok (mk_ndarray [shw] (map2 PrimFloat.add ws (sum_axis0 W))),
     mk_world (mk_model (PInt (Z.of_nat n)) ig (mk_ndarray [shm] ms)
       (mk_ndarray [sh]
          (map2 PrimFloat.add ss
             (map (fun i => dot (col W i) (map (sq_dev (nth i ms 0%float)) o))
                  (seq 0 n))))) r wd).
Proof.
  intros HW Ho (Hc & Hr & _) Hm Hs Hw. unfold fit_round, py_range.
  rewrite range_nat. run_step. unfold bind at 1. rewrite <- Hs at 1.
  pose proof (@add_to_sigma_loop observations weights k W o (PInt (Z.of_nat n)) ig ms r wd
                sh shm HW Ho Hr ss [] 0%nat eq_refl) as L.
  simpl app in L. rewrite L by (simpl; lia). clear L.
  run_step. rewrite HW.
  rewrite iadd_same by (rewrite length_sum_axis0; lia).
  simpl app. rewrite Hs. reflexivity.
Qed.
Section Rounds.

Variables (n : nat) (ig : bool) (r : RandomState) (wd : list Z).

(** The first pass over the trajectories from position [length po] on. *)
Lemma fit_mean_rounds (sg : ndarray) (sh shw : nat) (ro : list (list float))
    (rw : list matrix) :
  Forall2 (matrix_for n) ro rw ->
  forall (po : list (list float)) (pw : list matrix) (ms ws : list float),
    length po = length pw -> length ms = n -> length ws = n ->
    for_fold (map Z.of_nat (seq (length po) (length ro)))
      (fit_round (add_to_mean (po ++ ro) (pw ++ rw)) (PInt (Z.of_nat n)) (pw ++ rw))
      (mk_ndarray [shw] ws)
      (mk_world (mk_model (PInt (Z.of_nat n)) ig (mk_ndarray [sh] ms) sg) r wd)
    = (Ok (mk_ndarray [shw]
             (fold_left (fun v ow => map2 PrimFloat.add v (sum_axis0 (snd ow)))
                        (combine ro rw) ws)),
       mk_world (mk_model (PInt (Z.of_nat n)) ig
         (mk_ndarray [sh]
            (fold_left
               (fun v ow => map2 PrimFloat.add v
                              (map (fun i => dot (col (snd ow) i) (fst ow)) (seq 0 n)))
               (combine ro rw) ms)) sg) r wd).
Proof.
  induction 1 as [|o W ro rw HoW HF IH]; intros po pw ms ws Hp Hm Hw.
  - reflexivity.
  - simpl length. simpl seq. simpl map. simpl for_fold. unfold bind at 1.
    assert (HW : list_get (pw ++ W :: rw) (Z.of_nat (length po)) = Ok W)
      by (rewrite Hp; apply list_get_mid).
    assert (Ho : list_get (po ++ o :: ro) (Z.of_nat (length po)) = Ok o)
      by apply list_get_mid.
    rewrite (fit_round_mean _ _ _ _ _ _ ig sg r wd sh shw _ _ HW Ho HoW Hm Hw).
    destruct HoW as (Hc & Hr & _).
    specialize (IH (po ++ [o]) (pw ++ [W])).
    rewrite <- !app_assoc, length_app, Nat.add_1_r in IH. simpl app in IH.
    rewrite IH.
    + reflexivity.
    + rewrite !length_app. simpl. lia.
    + rewrite length_map2; rewrite ?length_map, ?length_seq; lia.
    + rewrite length_map2; rewrite ?length_sum_axis0; lia.
Qed.

(** The second pass, with the means [ms] of the first. *)
Lemma fit_sigma_rounds (ms : list float) (sh shm shw : nat) (ro : list (list float))
    (rw : list matrix) :
  Forall2 (matrix_for n) ro rw -> length ms = n ->
  forall (po : list (list float)) (pw : list matrix) (ss ws : list float),
    length po = length pw -> length ss = n -> length ws = n ->
    for_fold (map Z.of_nat (seq (length po) (length ro)))
      (fit_round (add_to_sigma (po ++ ro) (pw ++ rw)) (PInt (Z.of_nat n)) (pw ++ rw))
      (mk_ndarray [shw] ws)
      (mk_world (mk_model (PInt (Z.of_nat n)) ig (mk_ndarray [shm] ms) (mk_ndarray [sh] ss)) r wd)
    = (Ok (mk_ndarray [shw]
             (fold_left (fun v ow => map2 PrimFloat.add v (sum_axis0 (snd ow)))
                        (combine ro rw) ws)),
       mk_world (mk_model (PInt (Z.of_nat n)) ig (mk_ndarray [shm] ms)
         (mk_ndarray [sh]
            (fold_left
               (fun v ow =>
                  map2 PrimFloat.add v
                    (map (fun i => dot (col (snd ow) i)
                                     (map (sq_dev (nth i ms 0%float)) (fst ow)))
                         (seq 0 n)))
               (combine ro rw) ss))) r wd).
Proof.
  intros HF Hm. induction HF as [|o W ro rw HoW HF IH]; intros po pw ss ws Hp Hs Hw.
  - reflexivity.
  - simpl length. simpl seq. simpl map. simpl for_fold. unfold bind at 1.
    assert (HW : list_get (pw ++ W :: rw) (Z.of_nat (length po)) = Ok W)
      by (rewrite Hp; apply list_get_mid).
    assert (Ho : list_get (po ++ o :: ro) (Z.of_nat (length po)) = Ok o)
      by apply list_get_mid.
    rewrite (fit_round_sigma _ _ _ _ _ _ ig _ r wd sh shm shw _ _ HW Ho HoW Hm Hs Hw).
    destruct HoW as (Hc & Hr & _).
    specialize (IH (po ++ [o]) (pw ++ [W])).
    rewrite <- !app_assoc, length_app, Nat.add_1_r in IH. simpl app in IH.
    rewrite IH.
    + reflexivity.
    + rewrite !length_app. simpl. lia.
    + rewrite length_map2; rewrite ?length_map, ?length_seq; lia.
    + rewrite length_map2; rewrite ?length_sum_axis0; lia.
Qed.

End Rounds.

(** From the vectors of the loops to the sums of one state. *)
Lemma fold_map2_seq {X : Type} (g : X -> nat -> float) (n : nat) (l : list X) :
  forall v0 : nat -> float,
    fold_left (fun v x => map2 PrimFloat.add v (map (g x) (seq 0 n))) l (map v0 (seq 0 n))
    = map (fun i => fold_left (fun acc x => (acc + g x i)%float) l (v0 i)) (seq 0 n).
Proof.
  induction l as [|x l IH]; intros v0; simpl.
  - reflexivity.
  - rewrite map2_map_seq. apply (IH (fun i => (v0 i + g x i)%float)).
Qed.

Lemma fzeros_seq (n a : nat) : fzeros n = map (fun _ => 0%float) (seq a n).
Proof.
  revert a. unfold fzeros. induction n; intros a; simpl; [reflexivity | f_equal; apply IHn].
Qed.

Lemma length_fzeros (n : nat) : length (fzeros n) = n.
Proof. apply repeat_length. Qed.

Lemma fold_sum_axis0 (n : nat) (ro : list (list float)) (rw : list matrix) :
  Forall2 (matrix_for n) ro rw ->
  forall ws,
    fold_left (fun v ow => map2 PrimFloat.add v (sum_axis0 (snd ow))) (combine ro rw) ws
    = fold_left (fun v W => map2 PrimFloat.add v
                              (map (fun j => axis_sum (col W j)) (seq 0 n))) rw ws.
Proof.
  induction 1 as [|o W ro rw (Hc & _) HF IH]; intros ws; simpl.
  - reflexivity.
  - rewrite IH. unfold sum_axis0. rewrite Hc. reflexivity.
Qed.

Lemma weight_totals (n : nat) (ro : list (list float)) (rw : list matrix) :
  Forall2 (matrix_for n) ro rw ->
  fold_left (fun v ow => map2 PrimFloat.add v (sum_axis0 (snd ow))) (combine ro rw) (fzeros n)
  = map (weight_total rw) (seq 0 n).
Proof.
  intros HF. rewrite (fold_sum_axis0 n ro rw HF), (fzeros_seq n 0).
  apply (fold_map2_seq (fun W j => axis_sum (col W j))).
Qed.
Lemma fold_left_ext {A B : Type} (f g : A -> B -> A) (l : list B) :
  (forall a b, f a b = g a b) -> forall a, fold_left f l a = fold_left g l a.
Proof.
  intros E. induction l as [|b l IH]; intros a; simpl; [reflexivity|].
  rewrite E. apply IH.
Qed.

Lemma mean_numerators (n : nat) (ro : list (list float)) (rw : list matrix) :
  fold_left (fun v ow => map2 PrimFloat.add v
                           (map (fun i => dot (col (snd ow) i) (fst ow)) (seq 0 n)))
            (combine ro rw) (fzeros n)
  = map (weighted_sum (fun x => x) ro rw) (seq 0 n).
Proof.
  rewrite (fzeros_seq n 0).
  rewrite (fold_map2_seq (fun ow i => dot (col (snd ow) i) (fst ow))).
  apply map_ext. intros i. unfold weighted_sum. apply fold_left_ext.
  intros a ow. unfold weighted. now rewrite map_id.
Qed.

Lemma variance_numerators (n : nat) (ms : list float) (ro : list (list float))
    (rw : list matrix) :
  fold_left (fun v ow =>
               map2 PrimFloat.add v
                 (map (fun i => dot (col (snd ow) i)
                                  (map (sq_dev (nth i ms 0%float)) (fst ow)))
                      (seq 0 n)))
            (combine ro rw) (fzeros n)
  = map (fun i => weighted_sum (sq_dev (nth i ms 0%float)) ro rw i) (seq 0 n).
Proof.
  rewrite (fzeros_seq n 0).
  apply (fold_map2_seq
           (fun ow i => dot (col (snd ow) i) (map (sq_dev (nth i ms 0%float)) (fst ow)))).
Qed.

Lemma np_zeros_nat (n : nat) :
  np_zeros (PInt (Z.of_nat n)) = Ok (mk_ndarray [n] (fzeros n)).
Proof.
  unfold np_zeros. destruct (Z.ltb_spec (Z.of_nat n) 0); [lia|].
  rewrite Nat2Z.id. unfold vec. now rewrite length_fzeros.
Qed.

Lemma idiv_seq (sh : nat) (shw : list nat) (f g : nat -> float) (n : nat) :
  idiv (mk_ndarray [sh] (map f (seq 0 n))) (mk_ndarray shw (map g (seq 0 n)))
  = Ok (mk_ndarray [sh] (map (fun i => (f i / g i)%float) (seq 0 n))).
Proof.
  unfold idiv. simpl. rewrite !length_map, Nat.eqb_refl, map2_map_seq. reflexivity.
Qed.

Lemma nth_fit_means (n : nat) (obs : list (list float)) (weights : list matrix) (i : nat) :
  (i < n)%nat -> nth i (fit_means n obs weights) 0%float = fit_mean obs weights i.
Proof.
  intros H. unfold fit_means.
  rewrite (nth_indep _ 0%float (fit_mean obs weights 0)) by (now rewrite length_map, length_seq).
  rewrite (map_nth (fit_mean obs weights)), seq_nth by assumption. reflexivity.
Qed.


(** What a call of [fit] does on inputs of the documented shapes: it stores
    the closed-form estimates, and only then looks at the sigmas. *)
Lemma fit_run (n : nat) (ig : bool) (m0 s0 : ndarray) (r : RandomState) (wd : list Z)
    (observations : list (list float)) (weights : list matrix) :
  Forall2 (matrix_for n) observations weights ->
  fit observations weights (mk_world (mk_model (PInt (Z.of_nat n)) ig m0 s0) r wd)
  = (if existsb below_eps (fit_sigmas n observations weights)
     then Raise RuntimeError else Ok tt,
     mk_world (mk_model (PInt (Z.of_nat n)) ig
                 (mk_ndarray [n] (fit_means n observations weights))
                 (mk_ndarray [n] (fit_sigmas n observations weights))) r wd).
Proof.
  intros HF. unfold fit.
  unfold bind, get_self, lift, set_means, set_sigmas, ret, means, sigmas,
    with_means, with_sigmas.
  cbn [self _means _sigmas n_states ignore_outliers random warned].
  rewrite np_zeros_nat. rewrite range_nat.
  cbn [self _means _sigmas n_states ignore_outliers random warned].
  pose proof (fit_mean_rounds n ig r wd s0 n n observations weights HF [] []
                (fzeros n) (fzeros n) eq_refl (length_fzeros n) (length_fzeros n)) as L.
  simpl app in L. simpl length in L. rewrite L. clear L.
  rewrite (weight_totals n _ _ HF), mean_numerators.
  cbn [self _means _sigmas n_states ignore_outliers random warned].
  rewrite idiv_seq.
  cbn [self _means _sigmas n_states ignore_outliers random warned].
  fold (fit_mean observations weights). fold (fit_means n observations weights).
  assert (Hm : length (fit_means n observations weights) = n)
    by (unfold fit_means; now rewrite length_map, length_seq).
  pose proof (fit_sigma_rounds n ig r wd (fit_means n observations weights) n n n
                observations weights HF Hm [] [] (fzeros n) (fzeros n) eq_refl
                (length_fzeros n) (length_fzeros n)) as L.
  simpl app in L. simpl length in L. rewrite L. clear L.
  rewrite (weight_totals n _ _ HF), variance_numerators.
  cbn [self _means _sigmas n_states ignore_outliers random warned].
  rewrite idiv_seq.
  cbn [self _means _sigmas n_states ignore_outliers random warned shape data].
  rewrite map_map.
  assert (E : map (fun i => PrimFloat.sqrt
                     (weighted_sum (sq_dev (nth i (fit_means n observations weights) 0%float))
                        observations weights i / weight_total weights i)%float) (seq 0 n)
              = fit_sigmas n observations weights).
  { unfold fit_sigmas. apply map_ext_in. intros i Hi. apply in_seq in Hi.
    unfold fit_sigma. rewrite nth_fit_means by lia. reflexivity. }
  rewrite E.
  destruct (existsb below_eps (fit_sigmas n observations weights)); reflexivity.
Qed.
(** ** Comparisons of floats *)

Lemma SFcompare_antisym (x y : spec_float) (c : comparison) :
  SFcompare x y = Some c -> SFcompare y x = Some (CompOpp c).
Proof.
  destruct x as [sx|sx| |sx mx ex], y as [sy|sy| |sy my ey]; simpl;
    try discriminate; intros [= <-];
    try (destruct sx; reflexivity); try (destruct sy; reflexivity);
    try (destruct sx, sy; reflexivity).
  destruct sx, sy; try reflexivity.
  - rewrite (Z.compare_antisym ex ey).
    destruct (ex ?= ey)%Z eqn:E; simpl; try reflexivity.
    f_equal. f_equal. apply (Pos.compare_antisym mx my).
  - rewrite (Z.compare_antisym ex ey).
    destruct (ex ?= ey)%Z eqn:E; simpl; try reflexivity.
    exact (f_equal Some (Pos.compare_antisym mx my)).
Qed.

(** A float that is at least [y] is not below [y]. *)
Lemma leb_not_ltb (x y : float) :
  PrimFloat.leb y x = true -> PrimFloat.ltb x y = false.
Proof.
  rewrite FloatAxioms.leb_spec, FloatAxioms.ltb_spec. unfold SFleb, SFltb.
  destruct (SFcompare (Prim2SF y) (Prim2SF x)) as [c|] eqn:E; [|discriminate].
  rewrite (SFcompare_antisym _ _ _ E). destruct c; simpl; auto; discriminate.
Qed.

(** [eps] is the float64 machine epsilon: the distance from 1 to the next
    float above it. *)
Lemma eps_machine_epsilon :
  PrimFloat.next_up 1 = (1 + eps)%float /\ (PrimFloat.next_up 1 - 1)%float = eps.
Proof. split; reflexivity. Qed.

(** A float that fails to equal itself has the NaN as its value. *)
Lemma SFcompare_refl_nan (x : spec_float) :
  SFcompare x x <> Some Eq -> x = S754_nan.
Proof.
  destruct x as [s|s| |s m e]; simpl; intros H; try reflexivity; exfalso; apply H.
  - reflexivity.
  - destruct s; reflexivity.
  - rewrite Z.compare_refl.
    change (PosDef.Pos.compare_cont Eq m m) with (Pos.compare m m).
    rewrite Pos.compare_refl. destruct s; reflexivity.
Qed.

(** A NaN is below nothing. *)
Lemma nan_not_below (x y : float) :
  PrimFloat.is_nan x = true -> PrimFloat.ltb x y = false.
Proof.
  unfold PrimFloat.is_nan. rewrite FloatAxioms.eqb_spec, FloatAxioms.ltb_spec.
  unfold SFeqb, SFltb. intros H.
  assert (N : Prim2SF x = S754_nan).
  { apply SFcompare_refl_nan. intros E. rewrite E in H. discriminate H. }
  rewrite N. reflexivity.
Qed.

(** ** [fit] *)

Lemma fit_run_world (n : nat) (w : world) (observations : list (list float))
    (weights : list matrix) :
  n_states (self w) = PInt (Z.of_nat n) ->
  Forall2 (matrix_for n) observations weights ->
  fit observations weights w
  = (if existsb below_eps (fit_sigmas n observations weights)
     then Raise RuntimeError else Ok tt,
     mk_world (mk_model (PInt (Z.of_nat n)) (ignore_outliers (self w))
                 (mk_ndarray [n] (fit_means n observations weights))
                 (mk_ndarray [n] (fit_sigmas n observations weights)))
              (random w) (warned w)).
Proof.
  destruct w as [[N ig m0 s0] r wd]. simpl. intros -> HF. now apply fit_run.
Qed.


(** C2, amended: [fit] raises its error exactly when some resulting sigma
    compares below the float64 machine epsilon, and returns normally exactly
    when none does; in particular it returns normally whenever every
    resulting sigma is at least machine epsilon or NaN, since a NaN sigma is
    not below epsilon. *)
Theorem fit_raises_iff_below_eps (n : nat) (w : world) (observations : list (list float))
    (weights : list matrix) :
  n_states (self w) = PInt (Z.of_nat n) ->
  Forall2 (matrix_for n) observations weights ->
  (fst (fit observations weights w) = Raise RuntimeError
   <-> exists s, In s (data (sigmas (self (snd (fit observations weights w)))))
                 /\ PrimFloat.ltb s eps = true)
  /\ (fst (fit observations weights w) = Ok tt
      <-> forall s, In s (data (sigmas (self (snd (fit observations weights w)))))
                    -> PrimFloat.ltb s eps = false)
  /\ ((forall s, In s (data (sigmas (self (snd (fit observations weights w)))))
                 -> PrimFloat.leb eps s = true \/ PrimFloat.is_nan s = true)
      -> fst (fit observations weights w) = Ok tt).
Proof.
  intros Hn HF. rewrite (fit_run_world n w observations weights Hn HF).
  cbn [fst snd self sigmas _sigmas data].
  destruct (existsb below_eps (fit_sigmas n observations weights)) eqn:E.
  - apply existsb_exists in E. destruct E as (s & Hs & Hlt). unfold below_eps in Hlt.
    repeat split; try discriminate; eauto.
    + intros H. specialize (H s Hs). congruence.
    + intros H. destruct (H s Hs) as [L|N].
      * apply leb_not_ltb in L. congruence.
      * apply (nan_not_below s eps) in N. congruence.
  - assert (A : forall s, In s (fit_sigmas n observations weights) ->
                          PrimFloat.ltb s eps = false).
    { intros s Hs. destruct (PrimFloat.ltb s eps) eqn:Hlt; [|reflexivity].
      assert (existsb below_eps (fit_sigmas n observations weights) = true)
        by (apply existsb_exists; exists s; split; assumption).
      congruence. }
    repeat split; try discriminate; auto.
    intros (s & Hs & Hlt). rewrite (A s Hs) in Hlt. discriminate.
Qed.

Lemma float_neq_1_0 : 1%float <> 0%float.
Proof.
  intros H. apply (f_equal (PrimFloat.eqb 1%float)) in H. vm_compute in H. discriminate H.
Qed.

(** C3, amended: when [fit] raises its error the model is not restored: its
    means and sigmas are the estimates of this very call, among them the
    sigma below machine epsilon that caused the error. *)
Theorem fit_error_keeps_new_estimates (n : nat) (w : world)
    (observations : list (list float)) (weights : list matrix) :
  n_states (self w) = PInt (Z.of_nat n) ->
  Forall2 (matrix_for n) observations weights ->
  fst (fit observations weights w) = Raise RuntimeError ->
  data (means (self (snd (fit observations weights w)))) = fit_means n observations weights
  /\ data (sigmas (self (snd (fit observations weights w))))
     = fit_sigmas n observations weights
  /\ exists s, In s (data (sigmas (self (snd (fit observations weights w)))))
               /\ PrimFloat.ltb s eps = true.
Proof.
  intros Hn HF. rewrite (fit_run_world n w observations weights Hn HF).
  cbn [fst snd self means sigmas _means _sigmas data].
  destruct (existsb below_eps (fit_sigmas n observations weights)) eqn:E; [|discriminate].
  intros _. repeat split. apply existsb_exists in E. exact E.
Qed.

(** ** [sample] *)

Ltac run_all :=
  unfold bind, get_self, lift, set_means, set_sigmas, ret, means, sigmas,
    with_means, with_sigmas, randn, chisquare, warn, advance;
  cbn [self _means _sigmas n_states ignore_outliers random warned normal chisq ctr].

(** One pass through the loop body, for the state at position [length pm]. *)
Lemma sample_state_run (observations : list (list float)) (o : list float)
    (N : pyval) (ig : bool) (shm shs : nat) (pm qm ps qs : list float) (mu sg : float)
    (nf : nat -> float) (cf : nat -> float -> float) (c : nat) (wd : list Z) :
  list_get observations (Z.of_nat (length pm)) = Ok o ->
  length pm = length ps ->
  sample_state observations (Z.of_nat (length pm))
    (mk_world (mk_model N ig (mk_ndarray [shm] (pm ++ mu :: qm))
                 (mk_ndarray [shs] (ps ++ sg :: qs))) (mk_rng nf cf c) wd)
  = (Ok tt,
     mk_world (mk_model N ig
                 (mk_ndarray [shm] (pm ++ sampled_mean (mk_rng nf cf c) c mu sg o :: qm))
                 (mk_ndarray [shs] (ps ++ sampled_sigma (mk_rng nf cf c) c sg o :: qs)))
              (mk_rng nf cf (c + draws o))
              (wd ++ if Nat.eqb (length o) 0 then [Z.of_nat (length pm)] else [])).
Proof.
  intros Ho Hl. unfold sample_state. unfold bind at 1. unfold lift at 1. rewrite Ho.
  destruct o as [|x [|y o]]; simpl length; cbn [Nat.eqb Nat.ltb Nat.leb]; run_all.
  - rewrite Nat.add_0_r. reflexivity.
  - rewrite Hl at 1. rewrite getitem_mid, setitem_mid.
    rewrite app_nil_r, Nat.add_1_r. reflexivity.
  - rewrite Hl at 1. rewrite getitem_mid, setitem_mid.
    cbn [self _means _sigmas n_states ignore_outliers random warned normal chisq ctr].
    rewrite getitem_mid. rewrite Hl. rewrite setitem_mid.
    rewrite app_nil_r. replace (c + draws (x :: y :: o))%nat with (S (S c)) by (simpl; lia).
    unfold np_mean. rewrite !length_map. reflexivity.
Qed.
(** The loop of [sample] from state [length pm] on: [ro] holds the
    observations of the states still to visit. *)
Lemma sample_loop (N : pyval) (ig : bool) (shm shs : nat) (nf : nat -> float)
    (cf : nat -> float -> float) (c0 : nat) (extra : list (list float)) :
  forall (ro po : list (list float)) (pm ps qm qs : list float) (c : nat) (wd : list Z),
    length po = length pm -> length pm = length ps ->
    length qm = length ro -> length qs = length ro ->
    for_each (map Z.of_nat (seq (length pm) (length ro)))
      (sample_state (po ++ ro ++ extra))
      (mk_world (mk_model N ig (mk_ndarray [shm] (pm ++ qm)) (mk_ndarray [shs] (ps ++ qs)))
                (mk_rng nf cf c) wd)
    = (Ok tt,
       mk_world (mk_model N ig
                   (mk_ndarray [shm]
                      (pm ++ sample_means (mk_rng nf cf c0) c qm qs (ro ++ extra)))
                   (mk_ndarray [shs]
                      (ps ++ sample_sigmas (mk_rng nf cf c0) c qs (ro ++ extra))))
                (mk_rng nf cf (c + fold_right (fun o acc => (draws o + acc)%nat) 0%nat ro))
                (wd ++ empty_states (length pm) ro)).
Proof.
  induction ro as [|o ro IH]; intros po pm ps qm qs c wd Hpo Hps Hqm Hqs.
  - destruct qm; [|discriminate]. destruct qs; [|discriminate].
    simpl. rewrite Nat.add_0_r, !app_nil_r. reflexivity.
  - destruct qm as [|mu qm]; [discriminate|]. destruct qs as [|sg qs]; [discriminate|].
    simpl length. simpl seq. simpl map. simpl for_each. unfold bind at 1.
    simpl app.
    assert (Ho : list_get (po ++ o :: ro ++ extra) (Z.of_nat (length pm)) = Ok o)
      by (rewrite <- Hpo; apply list_get_mid).
    rewrite (sample_state_run _ o N ig shm shs pm qm ps qs mu sg nf cf c wd Ho Hps).
    specialize (IH (po ++ [o])
                   (pm ++ [sampled_mean (mk_rng nf cf c) c mu sg o])
                   (ps ++ [sampled_sigma (mk_rng nf cf c) c sg o])
                   qm qs (c + draws o)%nat
                   (wd ++ if Nat.eqb (length o) 0 then [Z.of_nat (length pm)] else [])).
    rewrite <- !app_assoc in IH. rewrite !length_app in IH. simpl length in IH.
    rewrite !Nat.add_1_r in IH. simpl app in IH.
    rewrite IH.
    + simpl. rewrite Nat.add_assoc. reflexivity.
    + lia.
    + lia.
    + simpl in Hqm. lia.
    + simpl in Hqs. lia.
Qed.

(** A whole call of [sample], on a model with [n] states and at least [n]
    lists of observations. *)
Lemma sample_run (n : nat) (ig : bool) (shm shs : nat) (ms ss : list float)
    (nf : nat -> float) (cf : nat -> float -> float) (c : nat) (wd : list Z)
    (observations : list (list float)) :
  length ms = n -> length ss = n -> (n <= length observations)%nat ->
  sample observations
    (mk_world (mk_model (PInt (Z.of_nat n)) ig (mk_ndarray [shm] ms) (mk_ndarray [shs] ss))
              (mk_rng nf cf c) wd)
  = (Ok tt,
     mk_world (mk_model (PInt (Z.of_nat n)) ig
                 (mk_ndarray [shm] (sample_means (mk_rng nf cf c) c ms ss observations))
                 (mk_ndarray [shs] (sample_sigmas (mk_rng nf cf c) c ss observations)))
              (mk_rng nf cf (c + draws_before observations n))
              (wd ++ empty_states 0 (firstn n observations))).
Proof.
  intros Hm Hs Hn. unfold sample. unfold bind at 1. unfold get_self.
  cbn [self n_states]. unfold py_range. rewrite range_nat. unfold bind at 1, lift at 1.
  pose proof (sample_loop (PInt (Z.of_nat n)) ig shm shs nf cf c (skipn n observations)
                (firstn n observations) [] [] [] ms ss c wd eq_refl eq_refl) as L.
  rewrite length_firstn, Nat.min_l in L by assumption.
  simpl app in L. rewrite firstn_skipn in L.
  apply L; lia.
Qed.
Lemma draws_before_S (o : list float) (obs : list (list float)) (i : nat) :
  draws_before (o :: obs) (S i) = (draws o + draws_before obs i)%nat.
Proof. reflexivity. Qed.

Lemma nth_sample_means (r : RandomState) :
  forall (i : nat) (ms ss : list float) (obs : list (list float)) (c : nat),
    (i < length ms)%nat -> length ss = length ms -> (length ms <= length obs)%nat ->
    nth i (sample_means r c ms ss obs) 0%float
    = sampled_mean r (c + draws_before obs i) (nth i ms 0%float) (nth i ss 0%float)
        (nth i obs []).
Proof.
  induction i as [|i IH]; intros [|mu ms] [|sg ss] [|o obs] c Hi Hs Ho;
    simpl in Hi, Hs, Ho; try lia.
  - unfold draws_before. simpl. rewrite Nat.add_0_r. reflexivity.
  - rewrite draws_before_S, Nat.add_assoc. simpl. apply IH; lia.
Qed.

Lemma nth_sample_sigmas (r : RandomState) :
  forall (i : nat) (ss : list float) (obs : list (list float)) (c : nat),
    (i < length ss)%nat -> (length ss <= length obs)%nat ->
    nth i (sample_sigmas r c ss obs) 0%float
    = sampled_sigma r (c + draws_before obs i) (nth i ss 0%float) (nth i obs []).
Proof.
  induction i as [|i IH]; intros [|sg ss] [|o obs] c Hi Ho; simpl in Hi, Ho; try lia.
  - unfold draws_before. simpl. rewrite Nat.add_0_r. reflexivity.
  - rewrite draws_before_S, Nat.add_assoc. simpl. apply IH; lia.
Qed.

Lemma in_empty_states (l : list (list float)) :
  forall (i a : nat), (i < length l)%nat -> nth i l [] = [] ->
                      In (Z.of_nat (a + i)) (empty_states a l).
Proof.
  induction l as [|o l IH]; intros i a Hi Hn; simpl in Hi; [lia|].
  destruct i as [|i]; simpl in Hn.
  - subst o. simpl. left. f_equal. lia.
  - simpl. apply in_or_app. right.
    replace (a + S i)%nat with (S a + i)%nat by lia. apply IH; [lia | assumption].
Qed.

Lemma nth_firstn {A : Type} (l : list A) (d : A) :
  forall (n i : nat), (i < n)%nat -> nth i (firstn n l) d = nth i l d.
Proof.
  induction l as [|x l IH]; intros [|n] [|i] H; simpl; try lia; try reflexivity.
  apply IH. lia.
Qed.

(** [sample] on a well-formed model, whatever the shape of the world. *)
Lemma sample_run_world (n : nat) (w : world) (observations : list (list float)) :
  n_states (self w) = PInt (Z.of_nat n) ->
  shape (means (self w)) = [n] -> length (data (means (self w))) = n ->
  shape (sigmas (self w)) = [n] -> length (data (sigmas (self w))) = n ->
  (n <= length observations)%nat ->
  sample observations w
  = (Ok tt,
     mk_world (mk_model (PInt (Z.of_nat n)) (ignore_outliers (self w))
                 (mk_ndarray [n]
                    (sample_means (random w) (ctr (random w)) (data (means (self w)))
                       (data (sigmas (self w))) observations))
                 (mk_ndarray [n]
                    (sample_sigmas (random w) (ctr (random w)) (data (sigmas (self w)))
                       observations)))
              (mk_rng (normal (random w)) (chisq (random w))
                      (ctr (random w) + draws_before observations n))
              (warned w ++ empty_states 0 (firstn n observations))).
Proof.
  destruct w as [[N ig [shm ms] [shs ss]] [nf cf c] wd]. simpl.
  intros -> -> Hm -> Hs Hn. now apply sample_run.
Qed.
Ltac use_sample_run :=
  match goal with
  | WF : well_formed ?n ?w, Hn : (?n <= length ?obs)%nat |- _ =>
      let A := fresh in let B := fresh in let C := fresh in
      let D := fresh in let E := fresh in
      destruct WF as (A & B & C & D & E);
      rewrite !(sample_run_world n w obs A B C D E Hn);
      cbn [fst snd self means sigmas _means _sigmas data warned random]
  end.

(** C8: a state without observations gets a warning and keeps its mean and
    its sigma; the call returns normally, and every state that has
    observations still gets its new mean. *)
Theorem sample_empty_state (n : nat) (w : world) (observations : list (list float))
    (i : nat) :
  well_formed n w -> (n <= length observations)%nat -> (i < n)%nat ->
  nth i observations [] = [] ->
  fst (sample observations w) = Ok tt
  /\ In (Z.of_nat i) (warned (snd (sample observations w)))
  /\ nth i (data (means (self (snd (sample observations w))))) 0%float
     = nth i (data (means (self w))) 0%float
  /\ nth i (data (sigmas (self (snd (sample observations w))))) 0%float
     = nth i (data (sigmas (self w))) 0%float
  /\ (forall j, (j < n)%nat -> nth j observations [] <> [] ->
       nth j (data (means (self (snd (sample observations w))))) 0%float
       = new_mean (random w) (ctr (random w) + draws_before observations j)
           (nth j (data (sigmas (self w))) 0%float) (nth j observations [])).
Proof.
  intros WF Hn Hi Ho. use_sample_run.
  split; [reflexivity|]. split.
  { apply in_or_app. right. apply (in_empty_states _ i 0).
    - rewrite length_firstn. lia.
    - rewrite nth_firstn by assumption. assumption. }
  rewrite nth_sample_means, nth_sample_sigmas by lia. rewrite Ho. simpl.
  repeat split.
  intros j Hj Hne. rewrite nth_sample_means by lia.
  destruct (nth j observations []); [contradiction | reflexivity].
Qed.

(** C7: a state with exactly one observation gets as its mean a standard
    normal draw scaled by sigma[state] / sqrt(1) = sigma[state] / 1 and
    centred at the mean of that single observation, the observation itself
    (as numpy's sum of one entry gives it: the entry, or the entry added onto
    0) over the count 1; its sigma stays as it was. *)
Theorem sample_single_observation (n : nat) (w : world)
    (observations : list (list float)) (i : nat) (x : float) :
  well_formed n w -> (n <= length observations)%nat -> (i < n)%nat ->
  nth i observations [] = [x] ->
  (nth i (data (means (self (snd (sample observations w))))) 0%float
   = (normal (random w) (ctr (random w) + draws_before observations i)
      * nth i (data (sigmas (self w))) 0%float / 1
      + x / 1)%float
   \/ nth i (data (means (self (snd (sample observations w))))) 0%float
      = (normal (random w) (ctr (random w) + draws_before observations i)
         * nth i (data (sigmas (self w))) 0%float / 1
         + (0 + x) / 1)%float)
  /\ nth i (data (sigmas (self (snd (sample observations w))))) 0%float
     = nth i (data (sigmas (self w))) 0%float.
Proof.
  intros WF Hn Hi Ho. use_sample_run.
  rewrite nth_sample_means, nth_sample_sigmas by lia. rewrite Ho.
  split; [|reflexivity].
  unfold sampled_mean, new_mean. simpl length.
  change (PrimFloat.sqrt (of_nat 1)) with 1%float. change (of_nat 1) with 1%float.
  destruct (red_sum_one np x) as [E|E]; rewrite E; [left | right]; reflexivity.
Qed.


(** ** The generators *)

Lemma getitem_valid (a : ndarray) (k : nat) (s : Z) :
  shape a = [k] -> (- Z.of_nat (length (data a)) <= s < Z.of_nat (length (data a)))%Z ->
  getitem a s = Ok (py_nth (data a) s).
Proof.
  intros Hs Hr. unfold getitem, py_index, py_nth. rewrite Hs.
  destruct (Z.ltb_spec s 0) as [Hneg|Hpos].
  - destruct (Z.leb_spec 0 s); [lia|]. cbn [andb].
    destruct (Z.leb_spec (- Z.of_nat (length (data a))) s); [|lia]. cbn [andb rbind].
    destruct (nth_error (data a) (Z.to_nat (s + Z.of_nat (length (data a))))) eqn:E.
    + now rewrite (nth_error_nth _ _ _ E).
    + apply nth_error_None in E. lia.
  - destruct (Z.leb_spec 0 s); [|lia].
    destruct (Z.ltb_spec s (Z.of_nat (length (data a)))); [|lia]. cbn [andb rbind].
    destruct (nth_error (data a) (Z.to_nat s)) eqn:E.
    + now rewrite (nth_error_nth _ _ _ E).
    + apply nth_error_None in E. lia.
Qed.

(** No generator touches the model: only the random state moves. *)
Lemma randn_n_frame (nobs : nat) (w : world) : self (snd (randn_n nobs w)) = self w.
Proof.
  revert w. induction nobs as [|k IH]; intros w; simpl; [reflexivity|].
  unfold bind at 1. unfold randn at 1. unfold bind at 1.
  match goal with |- context [randn_n k ?w1] => specialize (IH w1) end.
  destruct (randn_n k _) as [[zs|e] w2]; simpl in *; exact IH.
Qed.

Lemma trajectory_loop_frame (todo : list Z) :
  forall (t : nat) (o_t : list float) (w : world),
    self (snd (trajectory_loop todo t o_t w)) = self w.
Proof.
  induction todo as [|s rest IH]; intros t o_t w; simpl; [reflexivity|].
  run_all.
  destruct (getitem (_sigmas (self w)) s); [|reflexivity].
  destruct (getitem (_means (self w)) s); [|reflexivity].
  rewrite IH. reflexivity.
Qed.

(** The loop of [generate_observation_trajectory] from time [length done]. *)
Lemma trajectory_loop_run (m : GaussianOutputModel) (n : nat) (nf : nat -> float)
    (cf : nat -> float -> float) (c0 : nat) (wd : list Z) :
  shape (sigmas m) = [n] -> length (data (sigmas m)) = n ->
  shape (means m) = [n] -> length (data (means m)) = n ->
  forall (todo : list Z) (done rest : list float) (c : nat),
    Forall (fun s => (- Z.of_nat n <= s < Z.of_nat n)%Z) todo ->
    length rest = length todo ->
    trajectory_loop todo (length done) (done ++ rest) (mk_world m (mk_rng nf cf c) wd)
    = (Ok (done ++ emitted_from m (mk_rng nf cf c0) c todo),
       mk_world m (mk_rng nf cf (c + length todo)) wd).
Proof.
  intros Hss Hsl Hms Hml.
  induction todo as [|s todo IH]; intros done rest c HF Hl.
  - destruct rest; [|discriminate]. simpl. rewrite Nat.add_0_r. reflexivity.
  - destruct rest as [|x rest]; [discriminate|].
    apply Forall_cons_iff in HF as [Hs HF'].
    simpl trajectory_loop. run_all. unfold means, sigmas in *.
    rewrite (getitem_valid _ n s Hss) by (rewrite Hsl; exact Hs).
    rewrite (getitem_valid _ n s Hms) by (rewrite Hml; exact Hs).
    rewrite replace_nth_mid.
    specialize (IH (done ++ [(py_nth (data (_sigmas m)) s * nf c
                              + py_nth (data (_means m)) s)%float]) rest (S c) HF').
    rewrite length_app, Nat.add_1_r, <- !app_assoc in IH. simpl app in IH.
    rewrite IH by (simpl in Hl; lia).
    simpl. rewrite Nat.add_succ_r. reflexivity.
Qed.

Lemma length_emitted_from (m : GaussianOutputModel) (r : RandomState) (todo : list Z) :
  forall c, length (emitted_from m r c todo) = length todo.
Proof. induction todo as [|s todo IH]; intros c; simpl; [reflexivity | now rewrite IH]. Qed.

Lemma nth_emitted_from (m : GaussianOutputModel) (r : RandomState) (todo : list Z) :
  forall (c t : nat), (t < length todo)%nat ->
    nth t (emitted_from m r c todo) 0%float = emitted m r (c + t) (nth t todo 0%Z).
Proof.
  induction todo as [|s todo IH]; intros c t Ht; simpl in Ht; [lia|].
  destruct t as [|t]; simpl.
  - rewrite Nat.add_0_r. reflexivity.
  - rewrite IH by lia. rewrite Nat.add_succ_r. reflexivity.
Qed.

(** C9: on a sequence of valid hidden states, [generate_observation_trajectory]
    returns an array of the length of the sequence whose entry at time t is
    sigmas[s_t[t]] * Z_t + means[s_t[t]], with Z_t the t-th draw from here on,
    which is also what [generate_observation_from_state] returns for one
    draw; and no generator changes the model, whatever it is called with. *)
Theorem generators_read_only (n : nat) (w : world) (s_t : list Z) :
  well_formed n w ->
  Forall (fun s => (- Z.of_nat n <= s < Z.of_nat n)%Z) s_t ->
  (exists o_t,
      fst (generate_observation_trajectory s_t w) = Ok o_t
      /\ length o_t = length s_t
      /\ forall t, (t < length s_t)%nat ->
           nth t o_t 0%float
           = (py_nth (data (sigmas (self w))) (nth t s_t 0%Z)
              * normal (random w) (ctr (random w) + t)
              + py_nth (data (means (self w))) (nth t s_t 0%Z))%float)
  /\ (forall s, (- Z.of_nat n <= s < Z.of_nat n)%Z ->
       fst (generate_observation_from_state s w)
       = Ok (py_nth (data (sigmas (self w))) s * normal (random w) (ctr (random w))
             + py_nth (data (means (self w))) s)%float)
  /\ (forall s_t' w', self (snd (generate_observation_trajectory s_t' w')) = self w')
  /\ (forall s w', self (snd (generate_observation_from_state s w')) = self w')
  /\ (forall s nobs w', self (snd (generate_observations_from_state s nobs w')) = self w').
Proof.
  intros (Hn & Hms & Hml & Hss & Hsl) HF. repeat split.
  - destruct w as [m [nf cf c] wd]. cbn [self random ctr normal] in *.
    exists (emitted_from m (mk_rng nf cf c) c s_t).
    unfold generate_observation_trajectory.
    pose proof (trajectory_loop_run m n nf cf c wd Hss Hsl Hms Hml s_t []
                  (fzeros (length s_t)) c HF (length_fzeros _)) as L.
    simpl in L. rewrite L.
    split; [reflexivity|]. split; [apply length_emitted_from|].
    intros t Ht. now rewrite nth_emitted_from.
  - intros s Hs. unfold generate_observation_from_state. run_all.
    unfold means, sigmas in *.
    rewrite (getitem_valid _ n s Hss) by (rewrite Hsl; exact Hs).
    rewrite (getitem_valid _ n s Hms) by (rewrite Hml; exact Hs).
    reflexivity.
  - intros s_t' w'. apply trajectory_loop_frame.
  - intros s w'. unfold generate_observation_from_state. run_all.
    destruct (getitem (_sigmas (self w')) s); [|reflexivity].
    destruct (getitem (_means (self w')) s); reflexivity.
  - intros s nobs w'. unfold generate_observations_from_state.
    unfold bind at 1. unfold get_self at 1. unfold bind at 1. unfold lift at 1.
    destruct (getitem (sigmas (self w')) s); [|reflexivity].
    unfold bind at 1.
    destruct (nobs <? 0)%Z; [reflexivity|].
    pose proof (randn_n_frame (Z.to_nat nobs) w') as F.
    destruct (randn_n (Z.to_nat nobs) w') as [[zs|e] w2]; simpl in F; [|exact F].
    run_all. destruct (getitem (_means (self w')) s); exact F.
Qed.

Lemma generators_read_only_witness :
  (exists o_t,
      fst (generate_observation_trajectory [0; 2; -1]%Z three_state_world) = Ok o_t
      /\ length o_t = 3%nat
      /\ nth 1 o_t 0%float = (2 * 0.5 + 1)%float)
  /\ self (snd (generate_observation_trajectory [0; 2; -1]%Z three_state_world))
     = doc_model.
Proof.
  destruct (generators_read_only 3 three_state_world [0; 2; -1]%Z)
    as ((o_t & A & B & C) & _ & D & _).
  - repeat split.
  - repeat constructor; simpl; lia.
  - split.
    + exists o_t. split; [exact A|]. split; [exact B|]. apply (C 1%nat). simpl. lia.
    + apply D.
Defined.

(** * Further properties *)

(** ** The constructor *)

Lemma squeeze_size (s : list nat) :
  fold_right Nat.mul 1%nat (filter (fun d => negb (Nat.eqb d 1)) s)
  = fold_right Nat.mul 1%nat s.
Proof.
  induction s as [|d s IH]; simpl; [reflexivity|].
  destruct (Nat.eqb_spec d 1) as [->|E]; simpl; rewrite IH; lia.
Qed.

Lemma shape_ne_int_ok (s : list nat) (z : Z) :
  shape_ne s (PInt z) = Ok false -> (0 <= z)%Z /\ s = [Z.to_nat z].
Proof.
  destruct s as [|k rest]; simpl; [discriminate|].
  destruct (Z.eqb_spec (Z.of_nat k) z) as [E|E]; simpl; [|discriminate].
  destruct rest; simpl; [|discriminate]. intros _. subst z.
  split; [lia | now rewrite Nat2Z.id].
Qed.

Lemma checked_arg (a b : ndarray) (z : Z) :
  (let? bad := shape_ne (shape a) (PInt z) in
   if bad then shape_error (PInt z) else Ok a) = Ok b ->
  b = a /\ (0 <= z)%Z /\ shape a = [Z.to_nat z].
Proof.
  destruct (shape_ne (shape a) (PInt z)) as [[|]|] eqn:E; simpl; try discriminate.
  intros [= <-]. split; [reflexivity|]. now apply shape_ne_int_ok.
Qed.

Lemma np_zeros_int_ok (z : Z) (b : ndarray) :
  np_zeros (PInt z) = Ok b ->
  (0 <= z)%Z /\ shape b = [Z.to_nat z] /\ length (data b) = Z.to_nat z.
Proof.
  unfold np_zeros. destruct (Z.ltb_spec z 0); [discriminate|]. intros [= <-].
  simpl. rewrite length_fzeros. auto.
Qed.

(** X3: With an int [n_states], a model is only ever built with a non-negative
    [n_states] and two vectors of that length: a negative [n_states] is
    refused whatever the arrays, and well-formed arrays are stored with
    exactly [n_states] entries each. *)
Theorem init_establishes_invariant (z : Z) (ms ss : option ndarray) (ig : bool)
    (m : GaussianOutputModel) (r : RandomState) (wd : list Z) :
  (forall a, ms = Some a -> wf_ndarray a) ->
  (forall a, ss = Some a -> wf_ndarray a) ->
  __init__ (PInt z) ms ss ig = Ok m ->
  (0 <= z)%Z /\ ignore_outliers m = ig /\ well_formed (Z.to_nat z) (mk_world m r wd).
Proof.
  intros Wm Ws H. unfold __init__ in H.
  apply rbind_ok in H as (a & Ha & H). apply rbind_ok in H as (b & Hb & H).
  injection H as <-. unfold well_formed. cbn [self n_states means sigmas _means _sigmas
                                               ignore_outliers OutputModel_init fst snd].
  assert (A : (0 <= z)%Z /\ shape a = [Z.to_nat z] /\ length (data a) = Z.to_nat z).
  { destruct ms as [a0|].
    - apply checked_arg in Ha as (-> & Hz & Hs). repeat split; try assumption.
      rewrite (Wm a0 eq_refl), Hs. simpl. lia.
    - now apply np_zeros_int_ok. }
  assert (B : shape b = [Z.to_nat z] /\ length (data b) = Z.to_nat z).
  { destruct ss as [b0|].
    - apply checked_arg in Hb as (-> & Hz & Hs). split; [assumption|].
      unfold squeeze in *. simpl in *. rewrite (Ws b0 eq_refl), <- squeeze_size, Hs.
      simpl. lia.
    - apply np_zeros_int_ok in Hb. tauto. }
  destruct A as (Hz & A1 & A2), B as (B1 & B2).
  rewrite Z2Nat.id by assumption. repeat split; assumption.
Qed.

Lemma init_establishes_invariant_witness :
  (0 <= 3)%Z
  /\ ignore_outliers doc_model = true
  /\ well_formed 3 (mk_world doc_model fixed_draws []).
Proof.
  apply (init_establishes_invariant 3 (Some (vec [-1; 0; 1]%float))
           (Some (vec [0.5; 1; 2]%float)) true doc_model fixed_draws []).
  - intros a [= <-]. reflexivity.
  - intros a [= <-]. reflexivity.
  - reflexivity.
Defined.

(** X4: For one state no sigmas argument is ever accepted, of whatever shape and
    with whatever means: the squeeze leaves no axis of length one, and the
    check wants the shape (1,). *)
Theorem init_single_state_never_takes_sigmas (ms : option ndarray) (a : ndarray)
    (ig : bool) (m : GaussianOutputModel) :
  __init__ (PInt 1) ms (Some a) ig <> Ok m.
Proof.
  intros H. unfold __init__ in H.
  apply rbind_ok in H as (x & _ & H). apply rbind_ok in H as (b & Hb & _).
  apply checked_arg in Hb as (_ & _ & Hs). unfold squeeze in Hs. simpl in Hs.
  assert (I : In 1%nat (filter (fun d => negb (Nat.eqb d 1)) (shape a)))
    by (rewrite Hs; left; reflexivity).
  apply filter_In in I as [_ I]. discriminate I.
Qed.

(** ** More on [fit] *)

Lemma map2_div_zeros (n : nat) :
  map2 PrimFloat.div (fzeros n) (fzeros n) = repeat nan n.
Proof. unfold fzeros. induction n; simpl; [reflexivity | now rewrite IHn]. Qed.

Lemma no_nan_below_eps (n : nat) : existsb below_eps (repeat nan n) = false.
Proof. induction n; simpl; [reflexivity | assumption]. Qed.

Lemma map_sqrt_nan (n : nat) : map PrimFloat.sqrt (repeat nan n) = repeat nan n.
Proof. induction n; simpl; [reflexivity | now rewrite IHn]. Qed.

(** X7: Without a single trajectory [fit] does not look at the weights at all:
    every mean and every sigma becomes 0/0 = NaN, and the call returns
    without an error. *)
Theorem fit_no_trajectories (n : nat) (weights : list matrix) (w : world) :
  n_states (self w) = PInt (Z.of_nat n) ->
  fst (fit [] weights w) = Ok tt
  /\ data (means (self (snd (fit [] weights w)))) = repeat nan n
  /\ data (sigmas (self (snd (fit [] weights w)))) = repeat nan n.
Proof.
  destruct w as [[N ig m0 s0] r wd]. simpl. intros ->.
  unfold fit. simpl length. unfold range. simpl for_fold.
  unfold bind, get_self, lift, set_means, set_sigmas, ret, means, sigmas,
    with_means, with_sigmas.
  cbn [self _means _sigmas n_states ignore_outliers random warned].
  rewrite np_zeros_nat.
  cbn [self _means _sigmas n_states ignore_outliers random warned].
  unfold idiv. cbn [data shape]. rewrite Nat.eqb_refl, map2_div_zeros.
  cbn [self _means _sigmas n_states ignore_outliers random warned data shape].
  rewrite map_sqrt_nan, no_nan_below_eps.
  repeat split.
Qed.

Lemma length_fit_means (n : nat) (obs : list (list float)) (weights : list matrix) :
  length (fit_means n obs weights) = n.
Proof. unfold fit_means. now rewrite length_map, length_seq. Qed.

Lemma length_fit_sigmas (n : nat) (obs : list (list float)) (weights : list matrix) :
  length (fit_sigmas n obs weights) = n.
Proof. unfold fit_sigmas. now rewrite length_map, length_seq. Qed.

(** X8: [fit] starts from scratch: on matching inputs, two models with the same
    [n_states] end with the same outcome, the same means and the same sigmas,
    whatever parameters each held before. *)
Theorem fit_forgets_old_parameters (n : nat) (w1 w2 : world)
    (observations : list (list float)) (weights : list matrix) :
  n_states (self w1) = PInt (Z.of_nat n) -> n_states (self w2) = PInt (Z.of_nat n) ->
  Forall2 (matrix_for n) observations weights ->
  fst (fit observations weights w1) = fst (fit observations weights w2)
  /\ means (self (snd (fit observations weights w1)))
     = means (self (snd (fit observations weights w2)))
  /\ sigmas (self (snd (fit observations weights w1)))
     = sigmas (self (snd (fit observations weights w2))).
Proof.
  intros H1 H2 HF.
  rewrite (fit_run_world n w1 observations weights H1 HF).
  rewrite (fit_run_world n w2 observations weights H2 HF).
  repeat split.
Qed.

(** X9: After [fit] on matching inputs the model has [n_states] means and
    [n_states] sigmas again, whatever its arrays were before and also when the
    call ends in the sigma error. *)
Theorem fit_establishes_invariant (n : nat) (w : world)
    (observations : list (list float)) (weights : list matrix) :
  n_states (self w) = PInt (Z.of_nat n) ->
  Forall2 (matrix_for n) observations weights ->
  well_formed n (snd (fit observations weights w)).
Proof.
  intros Hn HF. rewrite (fit_run_world n w observations weights Hn HF).
  unfold well_formed. cbn [snd self n_states means sigmas _means _sigmas shape data].
  rewrite length_fit_means, length_fit_sigmas. repeat split.
Qed.

Lemma for_fold_app {A S : Type} (xs ys : list A) (body : A -> S -> M S) :
  forall (s : S) (w : world),
    for_fold (xs ++ ys) body s w
    = match for_fold xs body s w with
      | (Ok s', w') => for_fold ys body s' w'
      | (Raise e, w') => (Raise e, w')
      end.
Proof.
  induction xs as [|x xs IH]; intros s w; simpl.
  - reflexivity.
  - unfold bind. destruct (body x s w) as [[s1|e] w1]; [apply IH | reflexivity].
Qed.

Lemma py_index_raises (n : nat) (i : Z) (e : exn) :
  py_index n i = Raise e -> e = IndexError.
Proof.
  unfold py_index. destruct ((0 <=? i) && (i <? Z.of_nat n))%Z; [discriminate|].
  destruct ((- Z.of_nat n <=? i) && (i <? 0))%Z; [discriminate|]. now intros [= <-].
Qed.

Lemma getitem_raises (a : ndarray) (i : Z) (e : exn) :
  getitem a i = Raise e -> e = IndexError.
Proof.
  unfold getitem. destruct (shape a) as [|k [|k' t]]; try (now intros [= <-]).
  destruct (py_index (length (data a)) i) as [j|e'] eqn:E; simpl.
  - destruct (nth_error (data a) j); [discriminate | now intros [= <-]].
  - intros [= <-]. exact (py_index_raises _ _ _ E).
Qed.

Lemma list_get_beyond {A : Type} (l : list A) (k : nat) :
  (length l <= k)%nat -> list_get l (Z.of_nat k) = Raise IndexError.
Proof.
  intros H. unfold list_get, py_index.
  destruct (Z.ltb_spec (Z.of_nat k) (Z.of_nat (length l))); [lia|].
  rewrite andb_false_r.
  destruct (Z.ltb_spec (Z.of_nat k) 0); [lia|]. rewrite andb_false_r. reflexivity.
Qed.

Lemma add_to_mean_missing (observations : list (list float)) (weights : list matrix)
    (k i : Z) (w : world) :
  list_get weights k = Raise IndexError ->
  add_to_mean observations weights k i w = (Raise IndexError, w).
Proof.
  intros HW. unfold add_to_mean. unfold bind at 1. unfold get_self at 1.
  unfold bind at 1. unfold lift at 1.
  destruct (getitem (means (self w)) i) as [x|e] eqn:G.
  - unfold bind at 1. unfold lift at 1. rewrite HW. reflexivity.
  - now rewrite (getitem_raises _ _ _ G).
Qed.

(** A round for which there is no weight matrix stops with an IndexError
    before anything is written. *)
Lemma fit_round_missing (observations : list (list float)) (weights : list matrix)
    (k : Z) (n : nat) (ws : ndarray) (w : world) :
  list_get weights k = Raise IndexError ->
  fit_round (add_to_mean observations weights) (PInt (Z.of_nat n)) weights k ws w
  = (Raise IndexError, w).
Proof.
  intros HW. unfold fit_round, py_range. rewrite range_nat.
  unfold bind at 1. unfold lift at 1. unfold bind at 1.
  destruct n as [|n]; simpl seq; simpl map; simpl for_each.
  - unfold ret, bind, lift. rewrite HW. reflexivity.
  - unfold bind at 1. rewrite add_to_mean_missing by assumption. reflexivity.
Qed.

(** The first pass over a prefix [ro] of the trajectories, more of them
    ([xo]) following. *)
Lemma fit_mean_rounds_prefix (n : nat) (ig : bool) (r : RandomState) (wd : list Z)
    (sg : ndarray) (sh shw : nat) (xo : list (list float)) (ro : list (list float))
    (rw : list matrix) :
  Forall2 (matrix_for n) ro rw ->
  forall (po : list (list float)) (pw : list matrix) (ms ws : list float),
    length po = length pw -> length ms = n -> length ws = n ->
    for_fold (map Z.of_nat (seq (length po) (length ro)))
      (fit_round (add_to_mean (po ++ ro ++ xo) (pw ++ rw)) (PInt (Z.of_nat n)) (pw ++ rw))
      (mk_ndarray [shw] ws)
      (mk_world (mk_model (PInt (Z.of_nat n)) ig (mk_ndarray [sh] ms) sg) r wd)
    = (Ok (mk_ndarray [shw]
             (fold_left (fun v ow => map2 PrimFloat.add v (sum_axis0 (snd ow)))
                        (combine ro rw) ws)),
       mk_world (mk_model (PInt (Z.of_nat n)) ig
         (mk_ndarray [sh]
            (fold_left
               (fun v ow => map2 PrimFloat.add v
                              (map (fun i => dot (col (snd ow) i) (fst ow)) (seq 0 n)))
               (combine ro rw) ms)) sg) r wd).
Proof.
  induction 1 as [|o W ro rw HoW HF IH]; intros po pw ms ws Hp Hm Hw.
  - reflexivity.
  - simpl length. simpl seq. simpl map. simpl for_fold. unfold bind at 1. simpl app.
    assert (HW : list_get (pw ++ W :: rw) (Z.of_nat (length po)) = Ok W)
      by (rewrite Hp; apply list_get_mid).
    assert (Ho : list_get (po ++ o :: ro ++ xo) (Z.of_nat (length po)) = Ok o)
      by apply list_get_mid.
    rewrite (fit_round_mean _ _ _ _ _ _ ig sg r wd sh shw _ _ HW Ho HoW Hm Hw).
    destruct HoW as (Hc & Hr & _).
    specialize (IH (po ++ [o]) (pw ++ [W])).
    rewrite <- !app_assoc, length_app, Nat.add_1_r in IH. simpl app in IH.
    rewrite IH.
    + reflexivity.
    + rewrite !length_app. simpl. lia.
    + rewrite length_map2; rewrite ?length_map, ?length_seq; lia.
    + rewrite length_map2; rewrite ?length_sum_axis0; lia.
Qed.

Lemma fit_missing_weights_run (n : nat) (ig : bool) (m0 s0 : ndarray) (r : RandomState)
    (wd : list Z) (ro : list (list float)) (x : list float) (xo : list (list float))
    (rw : list matrix) :
  Forall2 (matrix_for n) ro rw ->
  exists m1,
    fit (ro ++ x :: xo) rw (mk_world (mk_model (PInt (Z.of_nat n)) ig m0 s0) r wd)
    = (Raise IndexError, mk_world (mk_model (PInt (Z.of_nat n)) ig m1 s0) r wd).
Proof.
  intros HF. unfold fit.
  unfold bind at 1. unfold get_self at 1. cbn [self n_states].
  unfold bind at 1. unfold lift at 1. rewrite np_zeros_nat.
  unfold bind at 1. unfold set_means at 1, with_means.
  cbn [self _means _sigmas n_states ignore_outliers random warned].
  unfold bind at 1. unfold lift at 1.
  unfold bind at 1.
  rewrite range_nat, length_app. simpl length.
  rewrite seq_app, map_app, for_fold_app. simpl seq. simpl map.
  pose proof (fit_mean_rounds_prefix n ig r wd s0 n n (x :: xo) ro rw HF [] []
                (fzeros n) (fzeros n) eq_refl (length_fzeros n) (length_fzeros n)) as L.
  simpl app in L. simpl length in L. rewrite L. clear L.
  simpl for_fold. unfold bind at 1.
  rewrite fit_round_missing.
  - eexists. reflexivity.
  - apply list_get_beyond. apply Forall2_length in HF. lia.
Qed.

(** X10: With fewer weight matrices than trajectories [fit] stops with an
    IndexError at the first trajectory that has none; by then the means have
    been overwritten, the sigmas are still the old ones. *)
Theorem fit_missing_weights (n : nat) (w : world) (observations : list (list float))
    (weights : list matrix) :
  n_states (self w) = PInt (Z.of_nat n) ->
  (length weights < length observations)%nat ->
  Forall2 (matrix_for n) (firstn (length weights) observations) weights ->
  fst (fit observations weights w) = Raise IndexError
  /\ sigmas (self (snd (fit observations weights w))) = sigmas (self w).
Proof.
  destruct w as [[N ig m0 s0] r wd]. simpl. intros -> Hl HF.
  rewrite <- (firstn_skipn (length weights) observations) at 1 2.
  destruct (skipn (length weights) observations) as [|x xo] eqn:E.
  - apply (f_equal (@length _)) in E. rewrite length_skipn in E. simpl in E. lia.
  - destruct (fit_missing_weights_run n ig m0 s0 r wd _ x xo weights HF) as [m1 ->].
    split; reflexivity.
Qed.

(** ** Sigmas as floats *)

Lemma rounded_not_negative (m e : Z) (l : location) :
  SFltb (binary_round_aux prec emax false m e l) (S754_zero false) = false.
Proof.
  unfold binary_round_aux.
  destruct (shr_fexp prec emax m e l) as [mrs e1].
  destruct (shr_fexp prec emax _ e1 loc_Exact) as [mrs2 e2].
  destruct (shr_m mrs2); try reflexivity.
  destruct (Z.leb e2 (emax - prec)); reflexivity.
Qed.

(** A square root is never below zero: it is NaN, a zero, or positive. *)
Lemma sqrt_not_negative (x : float) : PrimFloat.ltb (PrimFloat.sqrt x) 0%float = false.
Proof.
  rewrite FloatAxioms.ltb_spec, FloatAxioms.sqrt_spec.
  change (Prim2SF 0%float) with (S754_zero false).
  unfold FloatAxioms.SF64sqrt, SFsqrt.
  destruct (Prim2SF x) as [sx|[|]| |[|] mx ex]; try reflexivity.
  destruct (SFsqrt_core_binary prec emax (Z.pos mx) ex) as [[mz ez] lz].
  apply rounded_not_negative.
Qed.

Lemma SFcompare_none (x y : spec_float) :
  SFcompare x y = None -> x = S754_nan \/ y = S754_nan.
Proof.
  destruct x as [sx|sx| |sx mx ex], y as [sy|sy| |sy my ey]; simpl;
    try discriminate; auto.
Qed.

Lemma is_nan_SF (x : float) : Prim2SF x = S754_nan -> PrimFloat.is_nan x = true.
Proof.
  intros H. unfold PrimFloat.is_nan. rewrite FloatAxioms.eqb_spec, H. reflexivity.
Qed.

(** A float that is not below epsilon is at least epsilon, or NaN. *)
Lemma not_below_eps (x : float) :
  PrimFloat.ltb x eps = false -> PrimFloat.leb eps x = true \/ PrimFloat.is_nan x = true.
Proof.
  rewrite FloatAxioms.leb_spec, FloatAxioms.ltb_spec. unfold SFleb, SFltb.
  assert (E : Prim2SF eps <> S754_nan) by (vm_compute; discriminate).
  destruct (SFcompare (Prim2SF x) (Prim2SF eps)) as [c|] eqn:C.
  - rewrite (SFcompare_antisym _ _ _ C). destruct c; simpl; auto; discriminate.
  - intros _. right. apply is_nan_SF.
    destruct (SFcompare_none _ _ C); [assumption | contradiction].
Qed.

(** X11: Whatever [fit] stores as a sigma on matching inputs, with or without the
    final error, is a square root and hence never below zero; and when [fit]
    returns normally every sigma is at least machine epsilon or NaN. *)
Theorem fit_sigmas_range (n : nat) (w : world) (observations : list (list float))
    (weights : list matrix) (s : float) :
  n_states (self w) = PInt (Z.of_nat n) ->
  Forall2 (matrix_for n) observations weights ->
  In s (data (sigmas (self (snd (fit observations weights w))))) ->
  PrimFloat.ltb s 0%float = false
  /\ (fst (fit observations weights w) = Ok tt ->
      PrimFloat.leb eps s = true \/ PrimFloat.is_nan s = true).
Proof.
  intros Hn HF. rewrite (fit_run_world n w observations weights Hn HF).
  cbn [fst snd self sigmas _sigmas data]. intros Hs. split.
  - unfold fit_sigmas in Hs. apply in_map_iff in Hs as (i & <- & _).
    unfold fit_sigma. apply sqrt_not_negative.
  - destruct (existsb below_eps (fit_sigmas n observations weights)) eqn:E;
      [discriminate|]. intros _. apply not_below_eps.
    destruct (PrimFloat.ltb s eps) eqn:L; [|reflexivity].
    assert (existsb below_eps (fit_sigmas n observations weights) = true)
      by (apply existsb_exists; exists s; split; assumption).
    congruence.
Qed.

(** ** More on [sample] *)

Lemma length_sample_means (r : RandomState) :
  forall (ms ss : list float) (obs : list (list float)) (c : nat),
    length ss = length ms -> (length ms <= length obs)%nat ->
    length (sample_means r c ms ss obs) = length ms.
Proof.
  induction ms as [|mu ms IH]; intros [|sg ss] [|o obs] c Hs Ho;
    simpl in *; try lia; try reflexivity.
  rewrite IH; lia.
Qed.

Lemma length_sample_sigmas (r : RandomState) :
  forall (ss : list float) (obs : list (list float)) (c : nat),
    (length ss <= length obs)%nat -> length (sample_sigmas r c ss obs) = length ss.
Proof.
  induction ss as [|sg ss IH]; intros [|o obs] c Ho; simpl in *; try lia; try reflexivity.
  rewrite IH; lia.
Qed.

(** X13: [sample] keeps the invariant of the data model: a model with [n_states]
    means and sigmas has [n_states] means and sigmas afterwards. *)
Theorem sample_keeps_invariant (n : nat) (w : world) (observations : list (list float)) :
  well_formed n w -> (n <= length observations)%nat ->
  well_formed n (snd (sample observations w)).
Proof.
  intros WF Hn. pose proof WF as (A & B & C & D & E).
  rewrite (sample_run_world n w observations A B C D E Hn).
  unfold well_formed. cbn [snd self n_states means sigmas _means _sigmas shape data].
  unfold means, sigmas in *.
  rewrite length_sample_means, length_sample_sigmas by lia. repeat split; assumption.
Qed.

Lemma draws_count (l : list (list float)) :
  fold_right (fun o acc => (draws o + acc)%nat) 0%nat l
  = (length (filter (fun o => Nat.leb 1 (length o)) l)
     + length (filter (fun o => Nat.leb 2 (length o)) l))%nat.
Proof.
  induction l as [|o l IH]; simpl fold_right; simpl filter; [reflexivity|].
  rewrite IH. destruct o as [|x [|y o]]; simpl; lia.
Qed.

(** X14: [sample] takes one draw from the random state for every state that has
    an observation and one more for every state that has at least two, and
    none for the others: that is how far the random state has moved when it
    returns. *)
Theorem sample_draw_count (n : nat) (w : world) (observations : list (list float)) :
  well_formed n w -> (n <= length observations)%nat ->
  ctr (random (snd (sample observations w)))
  = (ctr (random w)
     + length (filter (fun o => Nat.leb 1 (length o)) (firstn n observations))
     + length (filter (fun o => Nat.leb 2 (length o)) (firstn n observations)))%nat.
Proof.
  intros (A & B & C & D & E) Hn.
  rewrite (sample_run_world n w observations A B C D E Hn).
  cbn [snd random ctr]. unfold draws_before. rewrite draws_count. lia.
Qed.

Lemma empty_states_in (l : list (list float)) :
  forall (a : nat) (z : Z),
    In z (empty_states a l) ->
    exists i, z = Z.of_nat (a + i) /\ (i < length l)%nat /\ nth i l [] = [].
Proof.
  induction l as [|o l IH]; intros a z H; simpl in H; [contradiction|].
  apply in_app_or in H as [H|H].
  - destruct o as [|x o]; simpl in H; [|contradiction].
    destruct H as [<-|[]]. exists 0%nat. rewrite Nat.add_0_r. simpl. repeat split. lia.
  - apply IH in H as (i & -> & Hi & Hn). exists (S i). simpl.
    repeat split; [f_equal; lia | lia | assumption].
Qed.

(** X15: The warnings of a call of [sample] are exactly its states without
    observations: the earlier warnings stay, and a state is warned about if
    and only if its list of observations is empty. *)
Theorem sample_warns_exactly_empty_states (n : nat) (w : world)
    (observations : list (list float)) (z : Z) :
  well_formed n w -> (n <= length observations)%nat ->
  (In z (warned (snd (sample observations w)))
   <-> In z (warned w)
       \/ exists i, z = Z.of_nat i /\ (i < n)%nat /\ nth i observations [] = []).
Proof.
  intros (A & B & C & D & E) Hn.
  rewrite (sample_run_world n w observations A B C D E Hn). cbn [snd warned].
  rewrite in_app_iff. split; intros [H|H]; auto; right.
  - apply empty_states_in in H as (i & -> & Hi & Hnth).
    rewrite length_firstn in Hi. exists i. simpl.
    rewrite nth_firstn in Hnth by lia. repeat split; [lia | assumption].
  - destruct H as (i & -> & Hi & Hnth). apply (in_empty_states _ i 0).
    + rewrite length_firstn. lia.
    + now rewrite nth_firstn.
Qed.

Lemma for_each_app {A : Type} (xs ys : list A) (body : A -> M unit) (w : world) :
  for_each (xs ++ ys) body w
  = match for_each xs body w with
    | (Ok _, w') => for_each ys body w'
    | (Raise e, w') => (Raise e, w')
    end.
Proof.
  revert w. induction xs as [|x xs IH]; intros w; simpl.
  - reflexivity.
  - unfold bind. destruct (body x w) as [[u|e] w1]; [apply IH | reflexivity].
Qed.

(** The loop of [sample] over the states that have a list of observations,
    further states ([tm], [ts]) following in the arrays. *)
Lemma sample_loop_prefix (N : pyval) (ig : bool) (shm shs : nat) (nf : nat -> float)
    (cf : nat -> float -> float) (c0 : nat) (tm ts : list float) :
  forall (ro po : list (list float)) (pm ps qm qs : list float) (c : nat) (wd : list Z),
    length po = length pm -> length pm = length ps ->
    length qm = length ro -> length qs = length ro ->
    for_each (map Z.of_nat (seq (length pm) (length ro)))
      (sample_state (po ++ ro))
      (mk_world (mk_model N ig (mk_ndarray [shm] (pm ++ qm ++ tm))
                   (mk_ndarray [shs] (ps ++ qs ++ ts)))
                (mk_rng nf cf c) wd)
    = (Ok tt,
       mk_world (mk_model N ig
                   (mk_ndarray [shm]
                      (pm ++ sample_means (mk_rng nf cf c0) c qm qs ro ++ tm))
                   (mk_ndarray [shs]
                      (ps ++ sample_sigmas (mk_rng nf cf c0) c qs ro ++ ts)))
                (mk_rng nf cf (c + fold_right (fun o acc => (draws o + acc)%nat) 0%nat ro))
                (wd ++ empty_states (length pm) ro)).
Proof.
  induction ro as [|o ro IH]; intros po pm ps qm qs c wd Hpo Hps Hqm Hqs.
  - destruct qm; [|discriminate]. destruct qs; [|discriminate].
    simpl. rewrite Nat.add_0_r, !app_nil_r. reflexivity.
  - destruct qm as [|mu qm]; [discriminate|]. destruct qs as [|sg qs]; [discriminate|].
    simpl length. simpl seq. simpl map. simpl for_each. unfold bind at 1.
    simpl app.
    assert (Ho : list_get (po ++ o :: ro) (Z.of_nat (length pm)) = Ok o)
      by (rewrite <- Hpo; apply list_get_mid).
    rewrite (sample_state_run _ o N ig shm shs pm (qm ++ tm) ps (qs ++ ts) mu sg nf cf c wd
               Ho Hps).
    specialize (IH (po ++ [o])
                   (pm ++ [sampled_mean (mk_rng nf cf c) c mu sg o])
                   (ps ++ [sampled_sigma (mk_rng nf cf c) c sg o])
                   qm qs (c + draws o)%nat
                   (wd ++ if Nat.eqb (length o) 0 then [Z.of_nat (length pm)] else [])).
    rewrite <- !app_assoc in IH. rewrite !length_app in IH. simpl length in IH.
    rewrite !Nat.add_1_r in IH. simpl app in IH.
    rewrite IH.
    + simpl. rewrite Nat.add_assoc. reflexivity.
    + lia.
    + lia.
    + simpl in Hqm. lia.
    + simpl in Hqs. lia.
Qed.

Lemma sample_state_missing (observations : list (list float)) (k : nat) (w : world) :
  (length observations <= k)%nat ->
  sample_state observations (Z.of_nat k) w = (Raise IndexError, w).
Proof.
  intros H. unfold sample_state. unfold bind at 1. unfold lift at 1.
  rewrite list_get_beyond by assumption. reflexivity.
Qed.

Lemma sample_missing_run (n : nat) (ig : bool) (shm shs : nat) (ms ss : list float)
    (nf : nat -> float) (cf : nat -> float -> float) (c : nat) (wd : list Z)
    (observations : list (list float)) :
  length ms = n -> length ss = n -> (length observations < n)%nat ->
  sample observations
    (mk_world (mk_model (PInt (Z.of_nat n)) ig (mk_ndarray [shm] ms) (mk_ndarray [shs] ss))
              (mk_rng nf cf c) wd)
  = (Raise IndexError,
     mk_world (mk_model (PInt (Z.of_nat n)) ig
                 (mk_ndarray [shm]
                    (sample_means (mk_rng nf cf c) c (firstn (length observations) ms)
                       (firstn (length observations) ss) observations
                     ++ skipn (length observations) ms))
                 (mk_ndarray [shs]
                    (sample_sigmas (mk_rng nf cf c) c (firstn (length observations) ss)
                       observations
                     ++ skipn (length observations) ss)))
              (mk_rng nf cf
                 (c + fold_right (fun o acc => (draws o + acc)%nat) 0%nat observations))
              (wd ++ empty_states 0 observations)).
Proof.
  intros Hm Hs Hl. set (L := length observations) in *.
  unfold sample. unfold bind at 1. unfold get_self.
  cbn [self n_states]. unfold py_range. rewrite range_nat.
  unfold bind at 1, lift at 1.
  replace (seq 0 n) with (seq 0 L ++ seq (0 + L) (n - L))
    by (rewrite <- seq_app; f_equal; lia).
  rewrite map_app, for_each_app.
  pose proof (sample_loop_prefix (PInt (Z.of_nat n)) ig shm shs nf cf c
                (skipn L ms) (skipn L ss) observations [] [] []
                (firstn L ms) (firstn L ss) c wd eq_refl eq_refl) as LP.
  simpl app in LP. simpl length in LP. rewrite !firstn_skipn in LP. fold L in LP.
  rewrite LP by (rewrite length_firstn; lia). clear LP.
  destruct (n - L)%nat as [|d] eqn:D; [lia|].
  simpl seq. simpl map. simpl for_each. unfold bind at 1.
  rewrite sample_state_missing by (fold L; lia).
  reflexivity.
Qed.

(** X16: With fewer lists of observations than states, [sample] re-samples the
    states that have a list and then stops with an IndexError: the model is
    left half updated, the remaining states as they were. *)
Theorem sample_missing_observations (n : nat) (w : world)
    (observations : list (list float)) :
  well_formed n w -> (length observations < n)%nat ->
  fst (sample observations w) = Raise IndexError
  /\ (forall j, (j < length observations)%nat ->
       nth j (data (means (self (snd (sample observations w))))) 0%float
       = sampled_mean (random w) (ctr (random w) + draws_before observations j)
           (nth j (data (means (self w))) 0%float)
           (nth j (data (sigmas (self w))) 0%float) (nth j observations [])
       /\ nth j (data (sigmas (self (snd (sample observations w))))) 0%float
          = sampled_sigma (random w) (ctr (random w) + draws_before observations j)
              (nth j (data (sigmas (self w))) 0%float) (nth j observations []))
  /\ (forall j, (length observations <= j)%nat ->
       nth j (data (means (self (snd (sample observations w))))) 0%float
       = nth j (data (means (self w))) 0%float
       /\ nth j (data (sigmas (self (snd (sample observations w))))) 0%float
          = nth j (data (sigmas (self w))) 0%float).
Proof.
  destruct w as [[N ig [shm ms] [shs ss]] [nf cf c] wd]. unfold well_formed. simpl.
  intros (-> & -> & Hm & -> & Hs) Hl.
  rewrite (sample_missing_run n ig n n ms ss nf cf c wd observations Hm Hs Hl).
  set (L := length observations) in *.
  cbn [fst snd self means sigmas _means _sigmas data].
  assert (Lm : length (sample_means (mk_rng nf cf c) c (firstn L ms) (firstn L ss)
                         observations) = L)
    by (rewrite length_sample_means; rewrite !length_firstn; lia).
  assert (Ls : length (sample_sigmas (mk_rng nf cf c) c (firstn L ss) observations) = L)
    by (rewrite length_sample_sigmas; rewrite !length_firstn; lia).
  split; [reflexivity|]. split.
  - intros j Hj.
    rewrite !app_nth1 by lia.
    rewrite nth_sample_means, nth_sample_sigmas by (rewrite !length_firstn; lia).
    rewrite !nth_firstn by lia. split; reflexivity.
  - intros j Hj. rewrite !app_nth2 by lia. rewrite Lm, Ls.
    rewrite <- (firstn_skipn L ms) at 2. rewrite <- (firstn_skipn L ss) at 2.
    rewrite !app_nth2 by (rewrite length_firstn; lia).
    rewrite !length_firstn. replace (Nat.min L (length ms)) with L by lia.
    replace (Nat.min L (length ss)) with L by lia. split; reflexivity.
Qed.

(** ** More on the generators *)

Lemma getitem_invalid (a : ndarray) (s : Z) :
  ~ (- Z.of_nat (length (data a)) <= s < Z.of_nat (length (data a)))%Z ->
  getitem a s = Raise IndexError.
Proof.
  intros H. unfold getitem. destruct (shape a) as [|k [|k' t]]; try reflexivity.
  unfold py_index.
  destruct (Z.leb_spec 0 s), (Z.ltb_spec s (Z.of_nat (length (data a))));
    cbn [andb]; try lia;
    destruct (Z.leb_spec (- Z.of_nat (length (data a))) s), (Z.ltb_spec s 0);
    cbn [andb]; try lia; reflexivity.
Qed.

Lemma randn_n_run (m : GaussianOutputModel) (nf : nat -> float)
    (cf : nat -> float -> float) (wd : list Z) :
  forall (k c : nat),
    randn_n k (mk_world m (mk_rng nf cf c) wd)
    = (Ok (map nf (seq c k)), mk_world m (mk_rng nf cf (c + k)) wd).
Proof.
  induction k as [|k IH]; intros c; simpl.
  - rewrite Nat.add_0_r. reflexivity.
  - unfold bind at 1. unfold randn at 1. cbn [random ctr normal chisq self warned advance].
    unfold advance. cbn [normal chisq ctr]. unfold bind at 1. rewrite IH.
    unfold ret. rewrite Nat.add_succ_r. reflexivity.
Qed.

Lemma generate_observations_run (m : GaussianOutputModel) (n : nat) (nf : nat -> float)
    (cf : nat -> float -> float) (c : nat) (wd : list Z) (s : Z) (nobs : nat) :
  shape (sigmas m) = [n] -> length (data (sigmas m)) = n ->
  shape (means m) = [n] -> length (data (means m)) = n ->
  (- Z.of_nat n <= s < Z.of_nat n)%Z ->
  generate_observations_from_state s (Z.of_nat nobs) (mk_world m (mk_rng nf cf c) wd)
  = (Ok (map (fun z => (py_nth (data (sigmas m)) s * z + py_nth (data (means m)) s)%float)
             (map nf (seq c nobs))),
     mk_world m (mk_rng nf cf (c + nobs)) wd).
Proof.
  intros Hss Hsl Hms Hml Hs. unfold generate_observations_from_state.
  unfold bind at 1. unfold get_self. cbn [self]. unfold bind at 1. unfold lift at 1.
  rewrite (getitem_valid _ n s Hss) by (rewrite Hsl; exact Hs).
  unfold bind at 1. destruct (Z.ltb_spec (Z.of_nat nobs) 0); [lia|].
  rewrite Nat2Z.id, randn_n_run.
  unfold bind, lift, ret. rewrite (getitem_valid _ n s Hms) by (rewrite Hml; exact Hs).
  reflexivity.
Qed.

Lemma map_seq_shift {A : Type} (g : nat -> A) (c k : nat) :
  map g (seq c k) = map (fun j => g (c + j)%nat) (seq 0 k).
Proof.
  rewrite <- (Nat.add_0_r c) at 1. generalize 0%nat as a.
  induction k as [|k IH]; intros a; simpl; [reflexivity|].
  f_equal. rewrite <- Nat.add_succ_r. apply IH.
Qed.

(** X17: [generate_observations_from_state] with a valid state and a count
    [nobs >= 0] returns exactly [nobs] observations, the j-th being
    sigmas[state] * Z_j + means[state] for the j-th draw from here on, and
    moves the random state by [nobs] draws; for [nobs = 0] that is the empty
    array and no draw. *)
Theorem generate_observations_values (n : nat) (w : world) (s : Z) (nobs : nat) :
  well_formed n w -> (- Z.of_nat n <= s < Z.of_nat n)%Z ->
  fst (generate_observations_from_state s (Z.of_nat nobs) w)
  = Ok (map (fun j => (py_nth (data (sigmas (self w))) s
                       * normal (random w) (ctr (random w) + j)
                       + py_nth (data (means (self w))) s)%float) (seq 0 nobs))
  /\ ctr (random (snd (generate_observations_from_state s (Z.of_nat nobs) w)))
     = (ctr (random w) + nobs)%nat.
Proof.
  destruct w as [m [nf cf c] wd]. unfold well_formed. cbn [self random ctr normal].
  intros (_ & Hms & Hml & Hss & Hsl) Hs.
  rewrite (generate_observations_run m n nf cf c wd s nobs Hss Hsl Hms Hml Hs).
  cbn [fst snd random ctr]. split; [|reflexivity].
  rewrite map_map, map_seq_shift. reflexivity.
Qed.

Lemma generate_observations_values_witness :
  fst (generate_observations_from_state 1 (Z.of_nat 2) three_state_world)
  = Ok [0.5; 0.5]%float
  /\ ctr (random (snd (generate_observations_from_state 1 (Z.of_nat 2) three_state_world)))
     = 2%nat.
Proof.
  apply (generate_observations_values 3 three_state_world 1 2).
  - repeat split.
  - simpl. lia.
Defined.

(** X18: A state index outside the model makes [generate_observation_from_state]
    and [generate_observations_from_state] raise an IndexError before any
    draw is taken: the whole state, random state included, is as before.  A
    negative count is refused with a ValueError, for a valid state likewise
    without a draw. *)
Theorem generators_bad_arguments (n : nat) (w : world) (s : Z) (nobs : Z) :
  well_formed n w ->
  (~ (- Z.of_nat n <= s < Z.of_nat n)%Z ->
   generate_observation_from_state s w = (Raise IndexError, w)
   /\ generate_observations_from_state s nobs w = (Raise IndexError, w))
  /\ ((- Z.of_nat n <= s < Z.of_nat n)%Z -> (nobs < 0)%Z ->
      generate_observations_from_state s nobs w = (Raise ValueError, w)).
Proof.
  intros (_ & Hms & Hml & Hss & Hsl). split.
  - intros Hs.
    unfold generate_observation_from_state, generate_observations_from_state.
    unfold bind, get_self, lift.
    rewrite getitem_invalid by (rewrite Hsl; exact Hs). split; reflexivity.
  - intros Hs Hn. unfold generate_observations_from_state.
    unfold bind at 1. unfold get_self. unfold bind at 1. unfold lift at 1.
    rewrite (getitem_valid _ n s Hss) by (rewrite Hsl; exact Hs).
    unfold bind at 1. destruct (Z.ltb_spec nobs 0); [reflexivity | lia].
Qed.

Lemma generators_bad_arguments_witness :
  generate_observation_from_state 3 three_state_world = (Raise IndexError, three_state_world)
  /\ generate_observations_from_state 0 (-1) three_state_world
     = (Raise ValueError, three_state_world).
Proof.
  destruct (generators_bad_arguments 3 three_state_world 3 5) as [A _];
    [repeat split|].
  destruct (generators_bad_arguments 3 three_state_world 0 (-1)) as [_ B];
    [repeat split|].
  split.
  - apply A. simpl. lia.
  - apply B; simpl; lia.
Defined.

Lemma trajectory_run (m : GaussianOutputModel) (n : nat) (nf : nat -> float)
    (cf : nat -> float -> float) (c0 c : nat) (wd : list Z) (s_t : list Z) :
  shape (sigmas m) = [n] -> length (data (sigmas m)) = n ->
  shape (means m) = [n] -> length (data (means m)) = n ->
  Forall (fun s => (- Z.of_nat n <= s < Z.of_nat n)%Z) s_t ->
  generate_observation_trajectory s_t (mk_world m (mk_rng nf cf c) wd)
  = (Ok (emitted_from m (mk_rng nf cf c0) c s_t),
     mk_world m (mk_rng nf cf (c + length s_t)) wd).
Proof.
  intros Hss Hsl Hms Hml HF. unfold generate_observation_trajectory.
  exact (trajectory_loop_run m n nf cf c0 wd Hss Hsl Hms Hml s_t []
           (fzeros (length s_t)) c HF (length_fzeros _)).
Qed.

Lemma emitted_from_app (m : GaussianOutputModel) (r : RandomState) (s1 s2 : list Z) :
  forall c,
    emitted_from m r c (s1 ++ s2)
    = emitted_from m r c s1 ++ emitted_from m r (c + length s1) s2.
Proof.
  induction s1 as [|s s1 IH]; intros c; simpl.
  - now rewrite Nat.add_0_r.
  - rewrite IH, Nat.add_succ_r. reflexivity.
Qed.

(** X19: Generating a trajectory for a concatenated state sequence is generating
    one for the first part and then, from the random state that leaves, one
    for the second part: the observations are appended and the final state
    is the same. *)
Theorem trajectory_concat (n : nat) (w : world) (s1 s2 : list Z) :
  well_formed n w ->
  Forall (fun s => (- Z.of_nat n <= s < Z.of_nat n)%Z) s1 ->
  Forall (fun s => (- Z.of_nat n <= s < Z.of_nat n)%Z) s2 ->
  exists o1 o2,
    fst (generate_observation_trajectory s1 w) = Ok o1
    /\ fst (generate_observation_trajectory s2
              (snd (generate_observation_trajectory s1 w))) = Ok o2
    /\ generate_observation_trajectory (s1 ++ s2) w
       = (Ok (o1 ++ o2),
          snd (generate_observation_trajectory s2
                 (snd (generate_observation_trajectory s1 w)))).
Proof.
  destruct w as [m [nf cf c] wd]. unfold well_formed. cbn [self].
  intros (_ & Hms & Hml & Hss & Hsl) H1 H2.
  rewrite (trajectory_run m n nf cf c c wd s1 Hss Hsl Hms Hml H1). cbn [fst snd].
  rewrite (trajectory_run m n nf cf c (c + length s1) wd s2 Hss Hsl Hms Hml H2).
  rewrite (trajectory_run m n nf cf c c wd (s1 ++ s2) Hss Hsl Hms Hml)
    by (apply Forall_app; split; assumption).
  cbn [fst snd]. eexists. eexists. split; [reflexivity|]. split; [reflexivity|].
  rewrite emitted_from_app, length_app, Nat.add_assoc. reflexivity.
Qed.

Lemma trajectory_concat_witness :
  exists o1 o2,
    fst (generate_observation_trajectory [0; 2]%Z three_state_world) = Ok o1
    /\ fst (generate_observation_trajectory [-1]%Z
              (snd (generate_observation_trajectory [0; 2]%Z three_state_world))) = Ok o2
    /\ generate_observation_trajectory ([0; 2] ++ [-1])%Z three_state_world
       = (Ok (o1 ++ o2),
          snd (generate_observation_trajectory [-1]%Z
                 (snd (generate_observation_trajectory [0; 2]%Z three_state_world)))).
Proof.
  apply (trajectory_concat 3 three_state_world [0; 2]%Z [-1]%Z).
  - repeat split.
  - repeat constructor; simpl; lia.
  - repeat constructor; simpl; lia.
Defined.

Lemma emitted_from_repeat (m : GaussianOutputModel) (nf : nat -> float)
    (cf : nat -> float -> float) (c0 : nat) (s : Z) :
  forall (k c : nat),
    emitted_from m (mk_rng nf cf c0) c (repeat s k)
    = map (fun z => (py_nth (data (sigmas m)) s * z + py_nth (data (means m)) s)%float)
          (map nf (seq c k)).
Proof.
  induction k as [|k IH]; intros c; simpl; [reflexivity|].
  rewrite IH. reflexivity.
Qed.

(** X20: [generate_observations_from_state(state, nobs)] is the vectorised form of
    a trajectory that stays in [state] for [nobs] steps: same observations,
    same final state. *)
Theorem generate_observations_as_trajectory (n : nat) (w : world) (s : Z) (nobs : nat) :
  well_formed n w -> (- Z.of_nat n <= s < Z.of_nat n)%Z ->
  generate_observations_from_state s (Z.of_nat nobs) w
  = generate_observation_trajectory (repeat s nobs) w.
Proof.
  destruct w as [m [nf cf c] wd]. unfold well_formed. cbn [self].
  intros (_ & Hms & Hml & Hss & Hsl) Hs.
  rewrite (generate_observations_run m n nf cf c wd s nobs Hss Hsl Hms Hml Hs).
  rewrite (trajectory_run m n nf cf c c wd (repeat s nobs) Hss Hsl Hms Hml)
    by (apply Forall_forall; intros x Hx; apply repeat_spec in Hx; now subst).
  rewrite emitted_from_repeat, repeat_length. reflexivity.
Qed.

Lemma generate_observations_as_trajectory_witness :
  generate_observations_from_state 1 (Z.of_nat 2) three_state_world
  = generate_observation_trajectory (repeat 1%Z 2) three_state_world.
Proof.
  apply (generate_observations_as_trajectory 3 three_state_world 1 2).
  - repeat split.
  - simpl. lia.
Defined.

Lemma trajectory_loop_invalid (m : GaussianOutputModel) (n : nat) :
  shape (sigmas m) = [n] -> length (data (sigmas m)) = n ->
  shape (means m) = [n] -> length (data (means m)) = n ->
  forall (todo : list Z),
    Exists (fun s => ~ (- Z.of_nat n <= s < Z.of_nat n)%Z) todo ->
    forall (t : nat) (o_t : list float) (r : RandomState) (wd : list Z),
      fst (trajectory_loop todo t o_t (mk_world m r wd)) = Raise IndexError.
Proof.
  intros Hss Hsl Hms Hml. induction todo as [|s todo IH]; intros HE t o_t r wd.
  - inversion HE.
  - simpl trajectory_loop. run_all. unfold means, sigmas in *.
    destruct (Z_le_dec (- Z.of_nat n) s) as [Hlo|Hlo];
      [destruct (Z_lt_dec s (Z.of_nat n)) as [Hhi|Hhi]|].
    + rewrite (getitem_valid _ n s Hss) by (rewrite Hsl; lia).
      rewrite (getitem_valid _ n s Hms) by (rewrite Hml; lia).
      apply IH. apply Exists_cons in HE as [HE|HE]; [|assumption].
      exfalso. apply HE. lia.
    + rewrite getitem_invalid by (rewrite Hsl; lia). reflexivity.
    + rewrite getitem_invalid by (rewrite Hsl; lia). reflexivity.
Qed.

(** X21: One state index outside the model anywhere in the sequence makes
    [generate_observation_trajectory] raise an IndexError: no array is
    returned, not even a partial one. *)
Theorem trajectory_bad_state (n : nat) (w : world) (s_t : list Z) :
  well_formed n w ->
  Exists (fun s => ~ (- Z.of_nat n <= s < Z.of_nat n)%Z) s_t ->
  fst (generate_observation_trajectory s_t w) = Raise IndexError.
Proof.
  destruct w as [m r wd]. unfold well_formed. cbn [self].
  intros (_ & Hms & Hml & Hss & Hsl) HE. unfold generate_observation_trajectory.
  now apply (trajectory_loop_invalid m n Hss Hsl Hms Hml).
Qed.

Lemma trajectory_bad_state_witness :
  fst (generate_observation_trajectory [0; 3; 1]%Z three_state_world) = Raise IndexError.
Proof.
  apply (trajectory_bad_state 3 three_state_world [0; 3; 1]%Z).
  - repeat split.
  - apply Exists_cons_tl. apply Exists_cons_hd. simpl. lia.
Defined.

(** ** Witnesses for the constructor lemmas *)

Lemma init_length_mismatch_witness :
  __init__ (PInt (Z.of_nat 3)) (Some (vec [-1; 0]%float)) None true = Raise ValueError
  /\ __init__ (PInt (Z.of_nat 3)) None (Some (vec [-1; 0]%float)) true = Raise ValueError.
Proof.
  apply (init_length_mismatch 3 [-1; 0]%float None true). simpl. lia.
Defined.

Lemma init_roundtrip_witness :
  __init__ (PInt (Z.of_nat 3)) (Some (vec [-1; 0; 1]%float))
    (Some (vec [0.5; 1; 2]%float)) true
  = Ok doc_model.
Proof.
  apply (init_roundtrip 3 [-1; 0; 1]%float [0.5; 1; 2]%float true).
  - reflexivity.
  - reflexivity.
  - lia.
Defined.

End Numpy.

(** * The methods run

    Counterexamples and instances on concrete inputs, with the reductions
    taken left to right.  The inputs are short and exactly representable, so
    that every way of adding gives the same floats. *)

(** ** [fit] *)


(** C2, as stated, fails: when a state receives no weight at all its sigma
    is NaN, NaN does not compare below eps, and [fit] returns normally with
    the NaN stored. *)
Lemma fit_zero_weight_stores_nan :
  weight_total sequential [mk_matrix 1 [[0%float]]] 0 = 0%float
  /\ fst (fit sequential [[1%float]] [mk_matrix 1 [[0%float]]] one_state_world) = Ok tt
  /\ map PrimFloat.is_nan
        (data (sigmas (self (snd (fit sequential [[1%float]] [mk_matrix 1 [[0%float]]]
                                    one_state_world)))))
     = [true].
Proof. repeat split; reflexivity. Qed.

Lemma fit_raises_iff_below_eps_witness :
  fst (fit sequential two_observations two_weights two_state_world) = Ok tt.
Proof.
  destruct (fit_raises_iff_below_eps sequential 2 two_state_world two_observations
              two_weights) as (_ & _ & C).
  - reflexivity.
  - repeat constructor.
  - apply C. intros s Hs. left. vm_compute in Hs.
    destruct Hs as [<-|[<-|[]]]; reflexivity.
Defined.

(** C3, as stated, fails: a single observation with weight one gives sigma 0,
    [fit] raises, and the model then holds mean 1 and sigma 0 in place of the
    mean 0 and sigma 1 it had before the call. *)
Lemma fit_error_changes_model :
  fst (fit sequential [[1%float]] [mk_matrix 1 [[1%float]]] one_state_world)
  = Raise RuntimeError
  /\ data (means (self one_state_world)) = [0%float]
  /\ data (means (self (snd (fit sequential [[1%float]] [mk_matrix 1 [[1%float]]]
                               one_state_world))))
     = [1%float]
  /\ means (self (snd (fit sequential [[1%float]] [mk_matrix 1 [[1%float]]]
                         one_state_world)))
     <> means (self one_state_world).
Proof.
  repeat split; try reflexivity.
  intros H. apply (f_equal (fun a => nth 0 (data a) 0%float)) in H. vm_compute in H.
  exact (float_neq_1_0 H).
Qed.

Lemma fit_error_keeps_new_estimates_witness :
  data (means (self (snd (fit sequential [[1%float]] [mk_matrix 1 [[1%float]]]
                            one_state_world))))
  = fit_means sequential 1 [[1%float]] [mk_matrix 1 [[1%float]]]
  /\ data (sigmas (self (snd (fit sequential [[1%float]] [mk_matrix 1 [[1%float]]]
                               one_state_world))))
     = fit_sigmas sequential 1 [[1%float]] [mk_matrix 1 [[1%float]]]
  /\ exists s, In s (data (sigmas (self (snd (fit sequential [[1%float]]
                                                [mk_matrix 1 [[1%float]]]
                                                one_state_world)))))
               /\ PrimFloat.ltb s eps = true.
Proof.
  apply (fit_error_keeps_new_estimates sequential 1 one_state_world [[1%float]]
           [mk_matrix 1 [[1%float]]]).
  - reflexivity.
  - repeat constructor.
  - reflexivity.
Defined.

Lemma fit_no_trajectories_witness :
  fst (fit sequential [] two_weights two_state_world) = Ok tt
  /\ data (means (self (snd (fit sequential [] two_weights two_state_world))))
     = repeat nan 2
  /\ data (sigmas (self (snd (fit sequential [] two_weights two_state_world))))
     = repeat nan 2.
Proof. apply (fit_no_trajectories sequential 2 two_weights two_state_world). reflexivity. Defined.

Lemma fit_forgets_old_parameters_witness :
  fst (fit sequential two_observations two_weights two_state_world)
  = fst (fit sequential two_observations two_weights
           (mk_world (mk_model (PInt 2) false (vec [7%float]) (scalar0 3%float))
                     fixed_draws []))
  /\ means (self (snd (fit sequential two_observations two_weights two_state_world)))
     = means (self (snd (fit sequential two_observations two_weights
                           (mk_world (mk_model (PInt 2) false (vec [7%float])
                                        (scalar0 3%float)) fixed_draws []))))
  /\ sigmas (self (snd (fit sequential two_observations two_weights two_state_world)))
     = sigmas (self (snd (fit sequential two_observations two_weights
                            (mk_world (mk_model (PInt 2) false (vec [7%float])
                                         (scalar0 3%float)) fixed_draws [])))).
Proof.
  apply (fit_forgets_old_parameters sequential 2).
  - reflexivity.
  - reflexivity.
  - repeat constructor.
Defined.

Lemma fit_establishes_invariant_witness :
  well_formed 1 (snd (fit sequential [[1%float]] [mk_matrix 1 [[1%float]]]
                        (mk_world (mk_model (PInt 1) true (vec [7; 8]%float)
                                     (scalar0 3%float)) fixed_draws []))).
Proof.
  apply (fit_establishes_invariant sequential 1).
  - reflexivity.
  - repeat constructor.
Defined.

Lemma fit_missing_weights_witness :
  fst (fit sequential two_observations [mk_matrix 2 [[1; 0]; [1; 0]; [0; 1]; [0; 1]]%float]
         two_state_world) = Raise IndexError
  /\ sigmas (self (snd (fit sequential two_observations
                          [mk_matrix 2 [[1; 0]; [1; 0]; [0; 1]; [0; 1]]%float]
                          two_state_world)))
     = sigmas (self two_state_world).
Proof.
  apply (fit_missing_weights sequential 2).
  - reflexivity.
  - simpl. lia.
  - repeat constructor.
Defined.

Lemma fit_sigmas_range_witness :
  PrimFloat.ltb 0.5%float 0%float = false
  /\ (fst (fit sequential two_observations two_weights two_state_world) = Ok tt ->
      PrimFloat.leb eps 0.5%float = true \/ PrimFloat.is_nan 0.5%float = true).
Proof.
  apply (fit_sigmas_range sequential 2 two_state_world two_observations two_weights
           0.5%float).
  - reflexivity.
  - repeat constructor.
  - vm_compute. left. reflexivity.
Defined.

(** ** [sample] *)

Lemma sample_empty_state_witness :
  fst (sample sequential three_observations three_state_world) = Ok tt
  /\ In 1%Z (warned (snd (sample sequential three_observations three_state_world)))
  /\ nth 1 (data (means (self (snd (sample sequential three_observations
                                       three_state_world))))) 0%float = 0%float.
Proof.
  destruct (sample_empty_state sequential 3 three_state_world three_observations 1)
    as (A & B & C & _).
  - repeat split.
  - simpl. lia.
  - lia.
  - reflexivity.
  - split; [exact A | split; [exact B | exact C]].
Defined.

Lemma sample_single_observation_witness :
  (nth 2 (data (means (self (snd (sample sequential three_observations
                                    three_state_world))))) 0%float
   = (0.5 * 2 / 1 + 5 / 1)%float
   \/ nth 2 (data (means (self (snd (sample sequential three_observations
                                       three_state_world))))) 0%float
      = (0.5 * 2 / 1 + (0 + 5) / 1)%float)
  /\ nth 2 (data (sigmas (self (snd (sample sequential three_observations
                                       three_state_world))))) 0%float
     = 2%float.
Proof.
  apply (sample_single_observation sequential 3 three_state_world three_observations 2
           5%float).
  - repeat split.
  - simpl. lia.
  - lia.
  - reflexivity.
Defined.



Lemma sample_keeps_invariant_witness :
  well_formed 3 (snd (sample sequential three_observations three_state_world)).
Proof.
  apply (sample_keeps_invariant sequential 3 three_state_world three_observations).
  - repeat split.
  - simpl. lia.
Defined.

Lemma sample_draw_count_witness :
  ctr (random (snd (sample sequential three_observations three_state_world))) = 3%nat.
Proof.
  apply (sample_draw_count sequential 3 three_state_world three_observations).
  - repeat split.
  - simpl. lia.
Defined.

Lemma sample_warns_exactly_empty_states_witness :
  In 1%Z (warned (snd (sample sequential three_observations three_state_world)))
  <-> In 1%Z (warned three_state_world)
      \/ exists i, 1%Z = Z.of_nat i /\ (i < 3)%nat /\ nth i three_observations [] = [].
Proof.
  apply (sample_warns_exactly_empty_states sequential 3 three_state_world
           three_observations 1%Z).
  - repeat split.
  - simpl. lia.
Defined.

Lemma sample_missing_observations_witness :
  fst (sample sequential [[1; 2]%float] three_state_world) = Raise IndexError
  /\ nth 2 (data (means (self (snd (sample sequential [[1; 2]%float]
                                       three_state_world))))) 0%float
     = 1%float.
Proof.
  destruct (sample_missing_observations sequential 3 three_state_world [[1; 2]%float])
    as (A & _ & C).
  - repeat split.
  - simpl. lia.
  - split; [exact A|]. apply (C 2%nat). simpl. lia.
Defined.
